(** * Model kinds of sqlmesh: classification, validation and rendering

    A verification development for [sqlmesh/core/model/kind.py] and the record
    base of [sqlmesh/utils/pydantic.py].

    The Python code is embedded shallowly:
    - a Python value is a term of [value]; a call either returns or raises, so
      fallible functions live in [outcome];
    - the class hierarchy below [ModelKind] is one inductive type whose
      constructors are the classes, equality of two instances being equality of
      class and of field values, as [BaseModel.__eq__] has it;
    - the model validation that the record base inherits is written out once
      ([field], [finish]) and each class lists its fields in declaration order,
      with the validators the source attaches to them. *)

From Stdlib Require Import String Ascii List ZArith Lia Bool.
From Stdlib Require Import DecimalString DecimalZ.
Import ListNotations.
Local Open Scope string_scope.
Local Open Scope Z_scope.
Set Warnings "-register-all".

(** ** The tag enumeration and the predicates of [ModelKindMixin] *)

Inductive ModelKindName : Type :=
| INCREMENTAL_BY_TIME_RANGE
| INCREMENTAL_BY_UNIQUE_KEY
| FULL
| VIEW
| EMBEDDED
| SEED
| EXTERNAL.

Definition ModelKindName_eqb (a b : ModelKindName) : bool :=
  match a, b with
  | INCREMENTAL_BY_TIME_RANGE, INCREMENTAL_BY_TIME_RANGE
  | INCREMENTAL_BY_UNIQUE_KEY, INCREMENTAL_BY_UNIQUE_KEY
  | FULL, FULL | VIEW, VIEW | EMBEDDED, EMBEDDED | SEED, SEED
  | EXTERNAL, EXTERNAL => true
  | _, _ => false
  end.

(** The members in definition order. *)
Definition members : list ModelKindName :=
  [INCREMENTAL_BY_TIME_RANGE; INCREMENTAL_BY_UNIQUE_KEY; FULL; VIEW; EMBEDDED;
   SEED; EXTERNAL].

(** [member.value]: the string each member is declared with. *)
Definition value_of (n : ModelKindName) : string :=
  match n with
  | INCREMENTAL_BY_TIME_RANGE => "INCREMENTAL_BY_TIME_RANGE"
  | INCREMENTAL_BY_UNIQUE_KEY => "INCREMENTAL_BY_UNIQUE_KEY"
  | FULL => "FULL"
  | VIEW => "VIEW"
  | EMBEDDED => "EMBEDDED"
  | SEED => "SEED"
  | EXTERNAL => "EXTERNAL"
  end.

(** [ModelKindName(text)]: the member whose value is [text]; Python raises
    [ValueError] where this is [None]. *)
Definition lookup_member (text : string) : option ModelKindName :=
  find (fun n => String.eqb (value_of n) text) members.

(** [ModelKindMixin]: a class provides [model_kind_name], the mixin derives the
    predicates from it. *)
Class ModelKindMixin (A : Type) : Type :=
  { model_kind_name : A -> ModelKindName }.

Section Mixin.
Context {A : Type} `{ModelKindMixin A}.

Definition is_incremental_by_time_range (self : A) : bool :=
  ModelKindName_eqb (model_kind_name self) INCREMENTAL_BY_TIME_RANGE.
Definition is_incremental_by_unique_key (self : A) : bool :=
  ModelKindName_eqb (model_kind_name self) INCREMENTAL_BY_UNIQUE_KEY.
Definition is_full (self : A) : bool :=
  ModelKindName_eqb (model_kind_name self) FULL.
Definition is_view (self : A) : bool :=
  ModelKindName_eqb (model_kind_name self) VIEW.
Definition is_embedded (self : A) : bool :=
  ModelKindName_eqb (model_kind_name self) EMBEDDED.
Definition is_seed (self : A) : bool :=
  ModelKindName_eqb (model_kind_name self) SEED.
Definition is_external (self : A) : bool :=
  ModelKindName_eqb (model_kind_name self) EXTERNAL.

(** [self.model_kind_name in (EMBEDDED, EXTERNAL)] *)
Definition is_symbolic (self : A) : bool :=
  existsb (ModelKindName_eqb (model_kind_name self)) [EMBEDDED; EXTERNAL].

Definition is_materialized (self : A) : bool :=
  negb (is_symbolic self || is_view self).

Definition only_latest (self : A) : bool :=
  is_view self || is_full self.
End Mixin.

#[export] Instance ModelKindName_mixin : ModelKindMixin ModelKindName :=
  {| model_kind_name := fun self => self |}.

(** ** Python text

    A [str] is a [string] of 8-bit characters.  [upper] and [int_of_text]
    are [str.upper()] and [int()] on ASCII text, every character below 128
    ([is_ascii]); Python treats text outside ASCII by the Unicode tables
    (letters with an upper case, further digits and white space), which the
    model leaves out, so a statement about arbitrary text that goes through
    either function assumes [is_ascii]. *)

Definition is_ascii_char (c : ascii) : bool := (nat_of_ascii c <? 128)%nat.

(** [text.isascii()] *)
Fixpoint is_ascii (text : string) : bool :=
  match text with
  | EmptyString => true
  | String c rest => is_ascii_char c && is_ascii rest
  end.

Definition upper_char (c : ascii) : ascii :=
  let n := nat_of_ascii c in
  if ((97 <=? n) && (n <=? 122))%nat then ascii_of_nat (n - 32) else c.

(** [text.upper()], for ASCII text: the letters a to z are shifted, every
    other character stays. *)
Fixpoint upper (text : string) : string :=
  match text with
  | EmptyString => EmptyString
  | String c rest => String (upper_char c) (upper rest)
  end.

(** Python truth of a [str]: [not text] holds exactly for the empty string. *)
Definition nonempty (text : string) : bool :=
  match text with EmptyString => false | String _ _ => true end.

(** [str(n)] for an [int]. *)
Definition str_of_int (n : Z) : string := NilZero.string_of_int (Z.to_int n).

(** White space as [int()] skips it in ASCII text: TAB, LF, VT, FF, CR and
    the space. *)
Definition is_space (c : ascii) : bool :=
  let n := nat_of_ascii c in
  (((9 <=? n) && (n <=? 13)) || (n =? 32))%nat.

Fixpoint lstrip (cs : list ascii) : list ascii :=
  match cs with
  | c :: rest => if is_space c then lstrip rest else cs
  | [] => []
  end.

Fixpoint rstrip (cs : list ascii) : list ascii :=
  match cs with
  | [] => []
  | c :: rest =>
      match rstrip rest with
      | [] => if is_space c then [] else [c]
      | kept => c :: kept
      end
  end.

Definition digit_of_char (c : ascii) : option (Decimal.uint -> Decimal.uint) :=
  match c with
  | "0"%char => Some Decimal.D0 | "1"%char => Some Decimal.D1
  | "2"%char => Some Decimal.D2 | "3"%char => Some Decimal.D3
  | "4"%char => Some Decimal.D4 | "5"%char => Some Decimal.D5
  | "6"%char => Some Decimal.D6 | "7"%char => Some Decimal.D7
  | "8"%char => Some Decimal.D8 | "9"%char => Some Decimal.D9
  | _ => None
  end.

(** The digits of a base-10 literal: at least one digit, single underscores
    allowed between digits only.  [after_digit] tells whether the character
    just read was a digit. *)
Fixpoint digits (cs : list ascii) (after_digit : bool) : option Decimal.uint :=
  match cs with
  | [] => if after_digit then Some Decimal.Nil else None
  | c :: rest =>
      if Ascii.eqb c "_" then
        if after_digit then digits rest false else None
      else
        match digit_of_char c with
        | Some d => option_map d (digits rest true)
        | None => None
        end
  end.

(** [int(text)] in base 10, for ASCII text: leading white space, an optional
    sign, the digits, trailing white space.  [None] is Python's [ValueError]
    (invalid literal). *)
Definition int_of_text (text : string) : option Z :=
  match lstrip (list_ascii_of_string text) with
  | "-"%char :: rest =>
      option_map (fun u => Z.opp (Z.of_uint u)) (digits (rstrip rest) false)
  | "+"%char :: rest => option_map Z.of_uint (digits (rstrip rest) false)
  | rest => option_map Z.of_uint (digits (rstrip rest) false)
  end.

(** ** sqlglot expressions

    The nodes of [sqlglot.exp] the code meets, with the arguments it reads.
    [ModelKindNode] is [sqlmesh.core.dialect.ModelKind], the node the parser
    builds for a [kind] declaration: a tag text and a list of properties.
    The first argument of a [Property] is a plain [str] in
    [TimeColumn.to_property] and a [Var] in [SeedKind.to_expression]. *)

Inductive Expression : Type :=
| Identifier (this : string) (quoted : bool)
| Literal (this : string) (is_string : bool)
| Var (this : string)
| Boolean (this : bool)
| Column (this : Expression) (table : option Expression)
| Tuple (expressions : list Expression)
| Property (this : Arg) (value : Expression)
| ModelKindNode (this : string) (expressions : list Expression)
with Arg : Type :=
| Text (s : string)
| Node (e : Expression).

(** [Expression.text(key)] on the argument itself: a [str] is returned as it
    is, an [Identifier], [Literal] or [Var] gives its [this], anything else
    the empty string. *)
Definition text_of (e : Expression) : string :=
  match e with
  | Identifier s _ | Literal s _ | Var s => s
  | _ => EmptyString
  end.

(** [e.name], that is [e.text("this")]. *)
Definition name (e : Expression) : string :=
  match e with
  | Identifier s _ | Literal s _ | Var s => s
  | Boolean _ => EmptyString
  | Column this _ => text_of this
  | Tuple _ => EmptyString
  | Property (Text s) _ => s
  | Property (Node this) _ => text_of this
  | ModelKindNode s _ => s
  end.

(** [e.expressions]: the [expressions] argument, or the empty list. *)
Definition expressions_of (e : Expression) : list Expression :=
  match e with
  | Tuple es | ModelKindNode _ es => es
  | _ => []
  end.

(** [e.is_int]: a number literal whose text [int()] accepts. *)
Definition is_int (e : Expression) : bool :=
  match e with
  | Literal s false => match int_of_text s with Some _ => true | None => false end
  | _ => false
  end.

(** The default of a [dialect] parameter, the empty string. *)
Definition default_dialect : string := EmptyString.

(** [exp.Literal.string(s)] and [exp.Literal.number(n)]. *)
Definition Literal_string (s : string) : Expression := Literal s true.
Definition Literal_number (n : Z) : Expression := Literal (str_of_int n) false.

(** ** The records *)

Record TimeColumn : Type := mkTimeColumn
  { column : string;
    format : option string }.

(** An instance of [ModelKind] or of one of its subclasses.  [Bare] is the
    class [ModelKind] itself; the four subclasses fix [name] by a [Literal]
    annotation, so it is not stored. *)
Inductive ModelKind : Type :=
| Bare (name : ModelKindName)
| IncrementalByTimeRangeKind
    (batch_size : option Z) (lookback : option Z) (time_column : TimeColumn)
| IncrementalByUniqueKeyKind
    (batch_size : option Z) (lookback : option Z) (unique_key : list string)
| ViewKind (materialized : bool)
| SeedKind (path : string) (batch_size : Z).

(** The [name] field of an instance. *)
Definition kind_name (self : ModelKind) : ModelKindName :=
  match self with
  | Bare n => n
  | IncrementalByTimeRangeKind _ _ _ => INCREMENTAL_BY_TIME_RANGE
  | IncrementalByUniqueKeyKind _ _ _ => INCREMENTAL_BY_UNIQUE_KEY
  | ViewKind _ => VIEW
  | SeedKind _ _ => SEED
  end.

(** [ModelKind.model_kind_name] returns [self.name]. *)
#[export] Instance ModelKind_mixin : ModelKindMixin ModelKind :=
  {| model_kind_name := kind_name |}.

(** ** Python values

    What a caller can hand to the validators: [None], [bool], [int], [str],
    a member of [ModelKindName] (a [str] subclass), [list], [tuple], [dict]
    with [str] keys in insertion order, a sqlglot expression, and instances
    of the two record families. *)
Inductive value : Type :=
| VNone
| VBool (b : bool)
| VInt (n : Z)
| VStr (s : string)
| VName (n : ModelKindName)
| VList (items : list value)
| VTuple (items : list value)
| VDict (entries : list (string * value))
| VExp (e : Expression)
| VTimeColumn (tc : TimeColumn)
| VKind (k : ModelKind).

Definition dict : Type := list (string * value).

(** [d.get(key)] *)
Fixpoint dict_get (d : dict) (key : string) : option value :=
  match d with
  | [] => None
  | (k, v) :: rest => if String.eqb k key then Some v else dict_get rest key
  end.

(** [d[key] = v]: an existing key keeps its position. *)
Fixpoint dict_set (d : dict) (key : string) (v : value) : dict :=
  match d with
  | [] => [(key, v)]
  | (k, w) :: rest =>
      if String.eqb k key then (k, v) :: rest else (k, w) :: dict_set rest key v
  end.

Definition keys (d : dict) : list string := map fst d.

(** [a == b] for a value against a member of [ModelKindName]: the member is a
    [str] and compares as its value. *)
Definition eq_member (v : value) (n : ModelKindName) : bool :=
  match v with
  | VStr s => String.eqb s (value_of n)
  | VName m => ModelKindName_eqb m n
  | _ => false
  end.

(** Python truth of a value ([bool(v)], [not v]).  Expressions and record
    instances define neither [__bool__] nor [__len__]. *)
Definition truthy (v : value) : bool :=
  match v with
  | VNone => false
  | VBool b => b
  | VInt n => negb (n =? 0)
  | VStr s => nonempty s
  | VName n => nonempty (value_of n)
  | VList items | VTuple items => match items with [] => false | _ => true end
  | VDict entries => match entries with [] => false | _ => true end
  | VExp _ | VTimeColumn _ | VKind _ => true
  end.

(** ** Exceptions and outcomes

    [ConfigError] is [sqlmesh.utils.errors.ConfigError]; it derives from
    [SQLMeshError] and [Exception] and is no [ValueError].  [ValueError] is one
    the source raises with a message of its own; [InvalidLiteral] and
    [InvalidMember] are the [ValueError]s of [int(text)] and of
    [ModelKindName(text)], [UnknownDialect] the one of
    [Dialect.get_or_raise]; [TypeError] stands for the built-in ones ([int] of
    a container, iteration over a scalar).  [ValidationError] is
    pydantic's, a subclass of [ValueError], with one line per failed
    location. *)
Inductive exn : Type :=
| ConfigError (msg : string)
| ValueError (msg : string)
| InvalidLiteral (text : string)
| InvalidMember (text : string)
| UnknownDialect (dialect : string)
| TypeError
| ValidationError (errors : list line_error)
with line_error : Type :=
| LineError (loc : list string) (type : error_type)
with error_type : Type :=
| value_error (cause : exn)
| missing
| extra_forbidden
| string_type
| int_type
| bool_type
| list_type
| enum
| literal_error
| model_type.

(** [isinstance(e, ValueError)] *)
Definition is_value_error (e : exn) : bool :=
  match e with
  | ValueError _ | InvalidLiteral _ | InvalidMember _ | UnknownDialect _
  | ValidationError _ => true
  | ConfigError _ | TypeError => false
  end.

Inductive outcome (A : Type) : Type :=
| Return (a : A)
| Raise (e : exn).
Arguments Return {A} a.
Arguments Raise {A} e.

Definition bind {A B : Type} (m : outcome A) (k : A -> outcome B) : outcome B :=
  match m with
  | Return a => k a
  | Raise e => Raise e
  end.

Declare Scope outcome_scope.
Delimit Scope outcome_scope with outcome.
Notation "x <- m ;; k" := (bind m (fun x => k))
  (at level 61, m at next level, right associativity) : outcome_scope.
Local Open Scope outcome_scope.

(** ** Model validation of the record base

    [PydanticModel] configures every record with [extra = "forbid"] and
    [validate_default = True].  Validation of a record built from keyword
    arguments goes field by field in declaration order: the input (or the
    default, which is validated like an input) passes the field's [before]
    validator and then the validation of the annotated type.  A [ValueError]
    raised on the way becomes a line of the final [ValidationError] (the
    lines of a [ValidationError] raised on the way are taken over); any other
    exception leaves validation at once.  Keys that name no field add one
    line each when extras are forbidden. *)

Inductive extra_policy : Type := allow | ignore | forbid.

Record ConfigDict : Type :=
  { arbitrary_types_allowed : bool;
    extra : extra_policy;
    validate_default : bool }.

Definition model_config : ConfigDict :=
  {| arbitrary_types_allowed := true;
     extra := forbid;
     validate_default := true |}.

Inductive validated (A : Type) : Type :=
| Valid (a : A)
| Invalid (errors : list line_error).
Arguments Valid {A} a.
Arguments Invalid {A} errors.

Definition errors_of {A : Type} (r : validated A) : list line_error :=
  match r with Valid _ => [] | Invalid errs => errs end.

(** Two fields validated one after the other: the record needs both, the
    lines of both are kept. *)
Definition both {A B : Type} (x : validated A) (y : validated B)
  : validated (A * B) :=
  match x, y with
  | Valid a, Valid b => Valid (a, b)
  | _, _ => Invalid (errors_of x ++ errors_of y)
  end.

Definition vmap {A B : Type} (f : A -> B) (x : validated A) : validated B :=
  match x with
  | Valid a => Valid (f a)
  | Invalid errs => Invalid errs
  end.

Definition under (fname : string) (e : line_error) : line_error :=
  match e with LineError loc t => LineError (fname :: loc) t end.

(** The validation of an annotated type: the value, or the lines to report
    below the field's own location. *)
Definition core (A : Type) : Type := value -> outcome (validated A).

(** One field.  [default] is the declared default, [None] for a required
    field; with [validate_default = True] a default goes the way of an
    input. *)

Definition field {A : Type} (kwargs : dict) (fname : string)
    (default : option value) (before : value -> outcome value)
    (type : core A) : outcome (validated A) :=
  let input :=
    match dict_get kwargs fname with
    | Some v => Some v
    | None => default
    end in
  match input with
  | None => Return (Invalid [LineError [fname] missing])
  | Some v =>
      match before v with
      | Raise (ValidationError errs) => Return (Invalid (map (under fname) errs))
      | Raise e =>
          if is_value_error e
          then Return (Invalid [LineError [fname] (value_error e)])
          else Raise e
      | Return v' =>
          r <- type v' ;;
          Return (match r with
                  | Valid a => Valid a
                  | Invalid errs => Invalid (map (under fname) errs)
                  end)
      end
  end.

Definition is_field (fields : list string) (key : string) : bool :=
  existsb (String.eqb key) fields.

Definition extras (fields : list string) (kwargs : dict) : list line_error :=
  match extra model_config with
  | forbid =>
      map (fun k => LineError [k] extra_forbidden)
          (filter (fun k => negb (is_field fields k)) (keys kwargs))
  | allow | ignore => []
  end.

(** The end of field validation: the instance, or a [ValidationError] with
    the lines of the fields followed by those of the extra keys. *)
Definition finish {A : Type} (fields : list string) (kwargs : dict)
    (r : validated A) : outcome A :=
  match r, extras fields kwargs with
  | Valid a, [] => Return a
  | _, more => Raise (ValidationError (errors_of r ++ more))
  end.

(** A [model_validator(mode="after")]: its [ValueError] is reported as a
    [ValidationError] with one line at the record itself. *)
Definition after {A : Type} (validator : A -> outcome A) (self : A) : outcome A :=
  match validator self with
  | Raise (ValidationError errs) => Raise (ValidationError errs)
  | Raise e =>
      if is_value_error e
      then Raise (ValidationError [LineError [] (value_error e)])
      else Raise e
  | Return a => Return a
  end.

Definition no_validator (v : value) : outcome value := Return v.

(** Annotated types, in pydantic's default (lax) mode.  The validators of
    this module hand [int] and [bool] fields a value of that type already
    (a [bool] counts as an [int]); values of other types are refused here. *)

Definition as_str : core string :=
  fun v => Return match v with
                  | VStr s => Valid s
                  | VName n => Valid (value_of n)
                  | _ => Invalid [LineError [] string_type]
                  end.

Definition as_int : core Z :=
  fun v => Return match v with
                  | VInt n => Valid n
                  | VBool b => Valid (if b then 1 else 0)
                  | _ => Invalid [LineError [] int_type]
                  end.

Definition as_bool : core bool :=
  fun v => Return match v with
                  | VBool b => Valid b
                  | _ => Invalid [LineError [] bool_type]
                  end.

(** [Optional[T]] *)
Definition optional {A : Type} (type : core A) : core (option A) :=
  fun v => match v with
           | VNone => Return (Valid None)
           | _ => r <- type v ;; Return (vmap Some r)
           end.

(** [List[T]]: every item is validated, lines are located by index. *)
Fixpoint items_of {A : Type} (type : core A) (index : Z) (items : list value)
  : outcome (validated (list A)) :=
  match items with
  | [] => Return (Valid [])
  | v :: rest =>
      r <- type v ;;
      rs <- items_of type (index + 1) rest ;;
      Return (vmap (fun p => fst p :: snd p)
                (both (match r with
                       | Valid a => Valid a
                       | Invalid errs => Invalid (map (under (str_of_int index)) errs)
                       end) rs))
  end.

Definition list_of {A : Type} (type : core A) : core (list A) :=
  fun v => match v with
           | VList items | VTuple items => items_of type 0 items
           | _ => Return (Invalid [LineError [] list_type])
           end.

(** A field annotated [ModelKindName]: a member, or the value of one. *)
Definition as_member : core ModelKindName :=
  fun v => Return match v with
                  | VName n => Valid n
                  | VStr s => match lookup_member s with
                              | Some n => Valid n
                              | None => Invalid [LineError [] enum]
                              end
                  | _ => Invalid [LineError [] enum]
                  end.

(** A field annotated [Literal[member]]: what compares equal to the member. *)
Definition as_literal (n : ModelKindName) : core ModelKindName :=
  fun v => Return (if eq_member v n then Valid n
                   else Invalid [LineError [] literal_error]).

(** ** Built-ins on values *)

(** [int(v)] *)
Definition py_int (v : value) : outcome Z :=
  match v with
  | VInt n => Return n
  | VBool b => Return (if b then 1 else 0)
  | VStr s =>
      match int_of_text s with
      | Some n => Return n
      | None => Raise (InvalidLiteral s)
      end
  | VName n =>
      match int_of_text (value_of n) with
      | Some k => Return k
      | None => Raise (InvalidLiteral (value_of n))
      end
  | _ => Raise TypeError
  end.

(** [e.this], that is [e.args.get("this")]. *)
Definition this_of (e : Expression) : value :=
  match e with
  | Identifier s _ | Literal s _ | Var s => VStr s
  | Boolean b => VBool b
  | Column this _ => VExp this
  | Tuple _ => VNone
  | Property (Text s) _ => VStr s
  | Property (Node this) _ => VExp this
  | ModelKindNode s _ => VStr s
  end.

(** [e.args.get("value")] *)
Definition value_arg (e : Expression) : value :=
  match e with
  | Property _ v => VExp v
  | _ => VNone
  end.

Fixpoint characters (s : string) : list value :=
  match s with
  | EmptyString => []
  | String c rest => VStr (String c EmptyString) :: characters rest
  end.

Definition option_value (o : option Z) : value :=
  match o with Some n => VInt n | None => VNone end.

Definition option_text (o : option string) : value :=
  match o with Some s => VStr s | None => VNone end.

(** The [__dict__] of a record instance, in field order. *)
Definition TimeColumn_fields (tc : TimeColumn) : dict :=
  [("column", VStr (column tc)); ("format", option_text (format tc))].

Definition ModelKind_fields (k : ModelKind) : dict :=
  ("name", VName (kind_name k)) ::
  match k with
  | Bare _ => []
  | IncrementalByTimeRangeKind b l tc =>
      [("batch_size", option_value b); ("lookback", option_value l);
       ("time_column", VTimeColumn tc)]
  | IncrementalByUniqueKeyKind b l ks =>
      [("batch_size", option_value b); ("lookback", option_value l);
       ("unique_key", VList (map VStr ks))]
  | ViewKind m => [("materialized", VBool m)]
  | SeedKind p b => [("path", VStr p); ("batch_size", VInt b)]
  end.

Definition pairs (d : dict) : list value :=
  map (fun kv => VTuple [VStr (fst kv); snd kv]) d.

(** [for i in v]: the items, or [TypeError].  A [str] yields its characters,
    a [dict] its keys, a record instance its (field, value) pairs.  The
    module iterates over an expression only after it has taken [Identifier]
    and [Tuple] apart, and a node of another class is not iterable. *)
Definition iterate (v : value) : outcome (list value) :=
  match v with
  | VList items | VTuple items => Return items
  | VStr s => Return (characters s)
  | VName n => Return (characters (value_of n))
  | VDict entries => Return (map VStr (keys entries))
  | VTimeColumn tc => Return (pairs (TimeColumn_fields tc))
  | VKind k => Return (pairs (ModelKind_fields k))
  | VNone | VBool _ | VInt _ | VExp _ => Raise TypeError
  end.

(** ** The classes of [kind.py] *)

Section Kinds.

(** What the module takes from outside, left abstract:
    - [object_str]: [str(v)] for a container, an expression (sqlglot's SQL
      generator) or a record instance;
    - [to_column]: [exp.to_column], from a column path to a column node;
    - [inverse_time_format dialect]: the rewriting of a time format through
      the [INVERSE_TIME_MAPPING] of [Dialect.get_or_raise(dialect)], that is
      [format_time] with that table; [None] where no dialect has the name. *)
Variable object_str : value -> string.
Variable to_column : string -> Expression.
Variable inverse_time_format : string -> option (string -> string).

(** [str(v)] *)
Definition py_str (v : value) : string :=
  match v with
  | VNone => "None"
  | VBool b => if b then "True" else "False"
  | VInt n => str_of_int n
  | VStr s => s
  | VName n => "ModelKindName." ++ value_of n
  | _ => object_str v
  end.

(** *** TimeColumn *)

Definition _column_validator (v : value) : outcome value :=
  if negb (truthy v) then Raise (ConfigError "Time Column cannot be empty.")
  else Return v.

(** The constructor [TimeColumn], called with keyword arguments. *)
Definition TimeColumn_init (kwargs : dict) : outcome TimeColumn :=
  c <- field kwargs "column" None _column_validator as_str ;;
  f <- field kwargs "format" (Some VNone) no_validator (optional as_str) ;;
  finish ["column"; "format"] kwargs
    (vmap (fun p => mkTimeColumn (fst p) (snd p)) (both c f)).

(** The validator [TimeColumn.field_validator()] attaches to [time_column]. *)
Definition _time_column_validator (v : value) : outcome value :=
  match v with
  | VExp (Tuple es) =>
      tc <- TimeColumn_init
              (combine ["column"; "format"] (map (fun e => VStr (name e)) es)) ;;
      Return (VTimeColumn tc)
  | VExp e =>
      tc <- TimeColumn_init [("column", VStr (name e))] ;;
      Return (VTimeColumn tc)
  | VStr _ | VName _ =>
      tc <- TimeColumn_init [("column", v)] ;;
      Return (VTimeColumn tc)
  | _ => Return v
  end.

(** A field annotated [TimeColumn]: an instance as it is, a [dict] as the
    keyword arguments of the record. *)
Definition as_TimeColumn : core TimeColumn :=
  fun v =>
    match v with
    | VTimeColumn tc => Return (Valid tc)
    | VDict entries =>
        match TimeColumn_init entries with
        | Return tc => Return (Valid tc)
        | Raise (ValidationError errs) => Return (Invalid errs)
        | Raise e => Raise e
        end
    | _ => Return (Invalid [LineError [] model_type])
    end.

(** [TimeColumn.to_expression(dialect)] *)
Definition TimeColumn_to_expression (self : TimeColumn) (dialect : string)
  : outcome Expression :=
  let col := to_column (column self) in
  match format self with
  | None => Return col
  | Some fmt =>
      if negb (nonempty fmt) then Return col
      else
        match inverse_time_format dialect with
        | None => Raise (UnknownDialect dialect)
        | Some rewrite =>
            Return (Tuple [col; Literal_string (rewrite fmt)])
        end
  end.

(** [TimeColumn.expression] *)
Definition TimeColumn_expression (self : TimeColumn) : Expression :=
  let col := to_column (column self) in
  match format self with
  | None => col
  | Some fmt =>
      if negb (nonempty fmt) then col
      else Tuple [col; Literal_string fmt]
  end.

(** [TimeColumn.to_property(dialect)] *)
Definition to_property (self : TimeColumn) (dialect : string)
  : outcome Expression :=
  e <- TimeColumn_to_expression self dialect ;;
  Return (Property (Text "time_column") e).

(** *** _Incremental *)

Definition _int_validator (field_name : string) (v : value) : outcome value :=
  match v with
  | VNone => Return VNone
  | _ =>
      num <- match v with
             | VExp e => py_int (VStr (name e))
             | _ => py_int v
             end ;;
      if num <? 0
      then Raise (ConfigError
                    ("Invalid value " ++ str_of_int num ++ " for " ++ field_name
                     ++ ". The value should be greater than 0"))
      else Return (VInt num)
  end.

(** Python truth of an [Optional[int]] field. *)
Definition is_set (o : option Z) : bool :=
  match o with Some n => negb (n =? 0) | None => false end.

Definition less (a b : option Z) : bool :=
  match a, b with Some x, Some y => x <? y | _, _ => false end.

(** [self.batch_size and self.lookback and self.batch_size < self.lookback] *)
Definition _kind_validator (self : ModelKind) : outcome ModelKind :=
  match self with
  | IncrementalByTimeRangeKind b l _ | IncrementalByUniqueKeyKind b l _ =>
      if is_set b && is_set l && less b l
      then Raise (ValueError "batch_size cannot be less than lookback")
      else Return self
  | _ => Return self
  end.

(** *** ModelKind and its subclasses, as constructors from keyword
    arguments *)

Definition ModelKind_init (kwargs : dict) : outcome ModelKind :=
  n <- field kwargs "name" None no_validator as_member ;;
  finish ["name"] kwargs (vmap Bare n).

Definition IncrementalByTimeRangeKind_init (kwargs : dict) : outcome ModelKind :=
  n <- field kwargs "name" (Some (VName INCREMENTAL_BY_TIME_RANGE))
         no_validator (as_literal INCREMENTAL_BY_TIME_RANGE) ;;
  b <- field kwargs "batch_size" (Some VNone) (_int_validator "batch_size")
         (optional as_int) ;;
  l <- field kwargs "lookback" (Some VNone) (_int_validator "lookback")
         (optional as_int) ;;
  tc <- field kwargs "time_column" None _time_column_validator
          as_TimeColumn ;;
  self <- finish ["name"; "batch_size"; "lookback"; "time_column"] kwargs
            (vmap (fun p => IncrementalByTimeRangeKind
                              (snd (fst (fst p))) (snd (fst p)) (snd p))
               (both (both (both n b) l) tc)) ;;
  after _kind_validator self.

Definition _parse_unique_key (v : value) : outcome value :=
  match v with
  | VExp (Identifier this _) => Return (VList [VStr this])
  | VExp (Tuple es) => Return (VList (map this_of es))
  | _ =>
      items <- iterate v ;;
      Return (VList (map (fun i => match i with
                                   | VExp (Identifier this _) => VStr this
                                   | _ => VStr (py_str i)
                                   end) items))
  end.

Definition IncrementalByUniqueKeyKind_init (kwargs : dict) : outcome ModelKind :=
  n <- field kwargs "name" (Some (VName INCREMENTAL_BY_UNIQUE_KEY))
         no_validator (as_literal INCREMENTAL_BY_UNIQUE_KEY) ;;
  b <- field kwargs "batch_size" (Some VNone) (_int_validator "batch_size")
         (optional as_int) ;;
  l <- field kwargs "lookback" (Some VNone) (_int_validator "lookback")
         (optional as_int) ;;
  ks <- field kwargs "unique_key" None _parse_unique_key (list_of as_str) ;;
  self <- finish ["name"; "batch_size"; "lookback"; "unique_key"] kwargs
            (vmap (fun p => IncrementalByUniqueKeyKind
                              (snd (fst (fst p))) (snd (fst p)) (snd p))
               (both (both (both n b) l) ks)) ;;
  after _kind_validator self.

Definition _parse_materialized (v : value) : outcome value :=
  match v with
  | VExp e => Return (VBool (truthy (this_of e)))
  | _ => Return (VBool (truthy v))
  end.

Definition ViewKind_init (kwargs : dict) : outcome ModelKind :=
  n <- field kwargs "name" (Some (VName VIEW)) no_validator
         (as_literal VIEW) ;;
  m <- field kwargs "materialized" (Some (VBool false)) _parse_materialized
         as_bool ;;
  finish ["name"; "materialized"] kwargs
    (vmap (fun p => ViewKind (snd p)) (both n m)).

Definition check_positive (shown : value) (n : Z) : outcome value :=
  if n <=? 0 then Raise (ValueError "Seed batch size must be a positive integer")
  else Return shown.

Definition _parse_batch_size (v : value) : outcome value :=
  match v with
  | VExp e =>
      if is_int e then
        n <- py_int (VStr (name e)) ;;
        check_positive (VInt n) n
      else Raise (ValueError "Seed batch size must be an integer value")
  | VInt n => check_positive v n
  | VBool b => check_positive v (if b then 1 else 0)
  | _ => Raise (ValueError "Seed batch size must be an integer value")
  end.

Definition _parse_path (v : value) : outcome value :=
  match v with
  | VExp (Literal this _) => Return (VStr this)
  | _ => Return (VStr (py_str v))
  end.

Definition SeedKind_init (kwargs : dict) : outcome ModelKind :=
  n <- field kwargs "name" (Some (VName SEED)) no_validator
         (as_literal SEED) ;;
  p <- field kwargs "path" None _parse_path as_str ;;
  b <- field kwargs "batch_size" (Some (VInt 1000)) _parse_batch_size
         as_int ;;
  finish ["name"; "path"; "batch_size"] kwargs
    (vmap (fun q => SeedKind (snd (fst q)) (snd q)) (both (both n p) b)).

(** *** The classes as values: [klass(kwargs)] and the field utilities of
    the record base *)

Inductive klass : Type :=
| Class_ModelKind
| Class_IncrementalByTimeRangeKind
| Class_IncrementalByUniqueKeyKind
| Class_ViewKind
| Class_SeedKind.

(** [cls.all_fields()]: the declared field names, inherited ones first. *)
Definition all_fields (cls : klass) : list string :=
  match cls with
  | Class_ModelKind => ["name"]
  | Class_IncrementalByTimeRangeKind =>
      ["name"; "batch_size"; "lookback"; "time_column"]
  | Class_IncrementalByUniqueKeyKind =>
      ["name"; "batch_size"; "lookback"; "unique_key"]
  | Class_ViewKind => ["name"; "materialized"]
  | Class_SeedKind => ["name"; "path"; "batch_size"]
  end.

(** [cls.required_fields()]: the fields without a default. *)
Definition required_fields (cls : klass) : list string :=
  match cls with
  | Class_ModelKind => ["name"]
  | Class_IncrementalByTimeRangeKind => ["time_column"]
  | Class_IncrementalByUniqueKeyKind => ["unique_key"]
  | Class_ViewKind => []
  | Class_SeedKind => ["path"]
  end.

Definition difference (xs ys : list string) : list string :=
  filter (fun x => negb (is_field ys x)) xs.

Definition missing_required_fields (cls : klass) (provided : list string)
  : list string := difference (required_fields cls) provided.

Definition extra_fields (cls : klass) (provided : list string)
  : list string := difference provided (all_fields cls).

(** The call of a class on keyword arguments. *)
Definition new (cls : klass) (kwargs : dict) : outcome ModelKind :=
  match cls with
  | Class_ModelKind => ModelKind_init kwargs
  | Class_IncrementalByTimeRangeKind => IncrementalByTimeRangeKind_init kwargs
  | Class_IncrementalByUniqueKeyKind => IncrementalByUniqueKeyKind_init kwargs
  | Class_ViewKind => ViewKind_init kwargs
  | Class_SeedKind => SeedKind_init kwargs
  end.

(** *** The classifier, [ModelKind.field_validator] *)

(** [{prop.name: prop.args.get("value") for prop in v.expressions}] *)
Definition props_of (es : list Expression) : dict :=
  fold_left (fun d prop => dict_set d (name prop) (value_arg prop)) es [].

(** The chain of comparisons of a tag with the four specialised kinds;
    [None] is the final [else]. *)
Definition specialised (tag : value) : option klass :=
  if eq_member tag INCREMENTAL_BY_TIME_RANGE
  then Some Class_IncrementalByTimeRangeKind
  else if eq_member tag INCREMENTAL_BY_UNIQUE_KEY
  then Some Class_IncrementalByUniqueKeyKind
  else if eq_member tag SEED then Some Class_SeedKind
  else if eq_member tag VIEW then Some Class_ViewKind
  else None.

Definition _model_kind_validator (v : value) : outcome (option ModelKind) :=
  match v with
  | VNone => Return None
  | VKind k => Return (Some k)
  | VExp (ModelKindNode tag es) =>
      let props := props_of es in
      k <- match specialised (VStr tag) with
           | Some cls => new cls props
           | None =>
               match lookup_member tag with
               | Some n => new Class_ModelKind (dict_set props "name" (VName n))
               | None => Raise (InvalidMember tag)
               end
           end ;;
      Return (Some k)
  | VDict entries =>
      let tag := match dict_get entries "name" with
                 | Some t => t
                 | None => VNone
                 end in
      k <- match specialised tag with
           | Some cls => new cls entries
           | None => new Class_ModelKind entries
           end ;;
      Return (Some k)
  | _ =>
      let text := upper (match v with
                         | VExp e => name e
                         | _ => py_str v
                         end) in
      let invalid :=
        Raise (ConfigError ("Invalid model kind '" ++ text ++ "'")) in
      match lookup_member text with
      | None => invalid
      | Some n =>
          match new Class_ModelKind [("name", VName n)] with
          | Return k => Return (Some k)
          | Raise e => if is_value_error e then invalid else Raise e
          end
      end
  end.

(** *** Rendering *)

(** [ModelKind.to_expression(expressions=...)]: the node
    [d.ModelKind(this=self.name.value.upper(), ...)]. *)
Definition ModelKind_to_expression (self : ModelKind)
    (expressions : list Expression) : Expression :=
  ModelKindNode (upper (value_of (kind_name self))) expressions.

(** [self.to_expression(dialect)] as each class resolves it: the two
    overrides pass their properties to the base method, the other classes
    inherit it. *)
Definition to_expression (self : ModelKind) (dialect : string)
  : outcome Expression :=
  match self with
  | IncrementalByTimeRangeKind _ _ tc =>
      p <- to_property tc dialect ;;
      Return (ModelKind_to_expression self [p])
  | SeedKind p b =>
      Return (ModelKind_to_expression self
                [Property (Node (Var "path")) (Literal_string p);
                 Property (Node (Var "batch_size")) (Literal_number b)])
  | _ => Return (ModelKind_to_expression self [])
  end.

(** Classifying what an instance renders with the default dialect gives
    the instance back. *)
Definition renders_back (v : ModelKind) : Prop :=
  exists e, to_expression v default_dialect = Return e
            /\ _model_kind_validator (VExp e) = Return (Some v).

End Kinds.

(** A sample of the outside functions, for the worked examples: every object
    prints as the same text, a column path is taken as one unquoted
    identifier, and every dialect name is known and keeps time formats as
    they are (the table of the base dialect is empty). *)
Definition sample_str (v : value) : string := "<object>".
Definition sample_column (path : string) : Expression :=
  Column (Identifier path false) None.
Definition sample_format (dialect : string) : option (string -> string) :=
  Some (fun fmt => fmt).

(** ** Vocabulary of the statements *)

(** What parsing a column text and a format comes to, in the words of the
    specification: the record, unless the column text is empty. *)
Definition parsed (col : string) (fmt : option string) : outcome value :=
  if nonempty col then Return (VTimeColumn (mkTimeColumn col fmt))
  else Raise (ConfigError "Time Column cannot be empty.").

(** The error reported for a seed whose [batch_size] is not positive. *)
Definition not_positive : exn :=
  ValidationError
    [LineError ["batch_size"]
       (value_error (ValueError "Seed batch size must be a positive integer"))].

(** A tuple node of identifiers, each with its text and its quoting. *)
Definition identifiers (keys : list (string * bool)) : list Expression :=
  map (fun kq => Identifier (fst kq) (snd kq)) keys.

(** The error of [_int_validator] for a negative number. *)
Definition invalid_value (n : Z) (field_name : string) : exn :=
  ConfigError ("Invalid value " ++ str_of_int n ++ " for " ++ field_name
               ++ ". The value should be greater than 0").

(** The error reported when [_kind_validator] raises. *)
Definition less_than_lookback : exn :=
  ValidationError
    [LineError []
       (value_error (ValueError "batch_size cannot be less than lookback"))].

(** What the construction of an incremental kind comes to when
    [batch_size] and [lookback] are integers and the other fields are
    valid: the two fields are checked in declaration order, then the
    record as a whole. *)
Definition incremental_outcome (b l : Z) (built : ModelKind)
  : outcome ModelKind :=
  if b <? 0 then Raise (invalid_value b "batch_size")
  else if l <? 0 then Raise (invalid_value l "lookback")
  else if negb (b =? 0) && negb (l =? 0) && (b <? l)
       then Raise less_than_lookback
  else Return built.

(** Keyword arguments of the two incremental kinds: the required field,
    valid, with a batch size and a lookback. *)
Definition time_range_args (col : string) (b l : value) : dict :=
  [("time_column", VStr col); ("batch_size", b); ("lookback", l)].

Definition unique_key_args (ks : list string) (b l : value) : dict :=
  [("unique_key", VList (map VStr ks)); ("batch_size", b); ("lookback", l)].

(** The error reported for a field whose text [int()] refuses. *)
Definition invalid_literal (field_name text : string) : exn :=
  ValidationError
    [LineError [field_name] (value_error (InvalidLiteral text))].

(** A call that raises. *)
Definition fails {A : Type} (m : outcome A) : Prop := exists e, m = Raise e.

(** [isinstance(e, exp.Tuple)] *)
Definition is_tuple (e : Expression) : bool :=
  match e with Tuple _ => true | _ => false end.

Section Rendered.
Variable to_column : string -> Expression.
Variable inverse_time_format : string -> option (string -> string).

(** The instances whose every field value is either rendered or the
    default: a bare kind for a tag without a class of its own, a view that
    is not materialized, a seed, and a kind by time range without
    [batch_size] and [lookback] whose column path is rendered as a node
    (no tuple) named by the whole path and whose format, if any, is not
    empty and is kept by the default dialect.  A kind by unique key is
    rendered without its key. *)
Definition rendered_in_full (v : ModelKind) : Prop :=
  match v with
  | Bare n => n = FULL \/ n = EMBEDDED \/ n = EXTERNAL
  | ViewKind m => m = false
  | SeedKind _ b => 0 < b
  | IncrementalByTimeRangeKind b l tc =>
      b = None /\ l = None
      /\ nonempty (column tc) = true
      /\ name (to_column (column tc)) = column tc
      /\ is_tuple (to_column (column tc)) = false
      /\ match format tc with
         | None => True
         | Some fmt =>
             nonempty fmt = true
             /\ exists rewrite,
                 inverse_time_format default_dialect = Some rewrite
                 /\ rewrite fmt = fmt
         end
  | IncrementalByUniqueKeyKind _ _ _ => False
  end.
End Rendered.

(** ** Field introspection and export of the record base

    [model_fields] is pydantic's table of a class's fields, in declaration
    order, here with what [_fields] reads of each: its alias and whether it
    is required (declared without a default). *)

Record FieldInfo : Type :=
  { alias : option string;
    is_required : bool }.

Definition required_field : FieldInfo :=
  {| alias := None; is_required := true |}.
Definition field_with_default : FieldInfo :=
  {| alias := None; is_required := false |}.

Definition model_fields (cls : klass) : list (string * FieldInfo) :=
  match cls with
  | Class_ModelKind => [("name", required_field)]
  | Class_IncrementalByTimeRangeKind =>
      [("name", field_with_default); ("batch_size", field_with_default);
       ("lookback", field_with_default); ("time_column", required_field)]
  | Class_IncrementalByUniqueKeyKind =>
      [("name", field_with_default); ("batch_size", field_with_default);
       ("lookback", field_with_default); ("unique_key", required_field)]
  | Class_ViewKind =>
      [("name", field_with_default); ("materialized", field_with_default)]
  | Class_SeedKind =>
      [("name", field_with_default); ("path", required_field);
       ("batch_size", field_with_default)]
  end.

(** [cls._fields(predicate)]: the alias of a field if it has one (a non-empty
    one), its name otherwise, for the fields the predicate keeps. *)
Definition _fields (cls : klass) (predicate : FieldInfo -> bool) : list string :=
  map (fun nf => match alias (snd nf) with
                 | Some a => if nonempty a then a else fst nf
                 | None => fst nf
                 end)
      (filter (fun nf => predicate (snd nf)) (model_fields cls)).

(** The arguments of [model_dump] that [DEFAULT_ARGS] sets. *)
Record dump_args : Type :=
  { exclude_none : bool;
    by_alias : bool }.

Definition DEFAULT_ARGS : dump_args :=
  {| exclude_none := true; by_alias := true |}.

(** The merge of [DEFAULT_ARGS] with the caller's keyword arguments, the
    caller's winning. *)
Definition merged (exclude_none' by_alias' : option bool) : dump_args :=
  {| exclude_none := match exclude_none' with
                     | Some b => b
                     | None => exclude_none DEFAULT_ARGS
                     end;
     by_alias := match by_alias' with
                 | Some b => b
                 | None => by_alias DEFAULT_ARGS
                 end |}.

Definition is_none (v : value) : bool :=
  match v with VNone => true | _ => false end.

(** [model_dump] in Python mode: the fields in order, a nested record as its
    own dump, members and lists as they are, [None] left out on request.  No
    field of the family declares an alias, so [by_alias] changes no key. *)
Definition dump_fields (args : dump_args) (fields : dict) : dict :=
  filter (fun kv => negb (exclude_none args && is_none (snd kv))) fields.

Definition dump_value (args : dump_args) (v : value) : value :=
  match v with
  | VTimeColumn tc => VDict (dump_fields args (TimeColumn_fields tc))
  | _ => v
  end.

Definition model_dump (args : dump_args) (self : ModelKind) : dict :=
  dump_fields args
    (map (fun kv => (fst kv, dump_value args (snd kv))) (ModelKind_fields self)).

(** [self.dict(...)] of [PydanticModel], for an instance of the family and
    for a time column. *)
Definition PydanticModel_dict (self : ModelKind)
    (exclude_none' by_alias' : option bool) : dict :=
  model_dump (merged exclude_none' by_alias') self.

Definition TimeColumn_dict (self : TimeColumn)
    (exclude_none' by_alias' : option bool) : dict :=
  dump_fields (merged exclude_none' by_alias') (TimeColumn_fields self).

(** The class of an instance. *)
Definition class_of (self : ModelKind) : klass :=
  match self with
  | Bare _ => Class_ModelKind
  | IncrementalByTimeRangeKind _ _ _ => Class_IncrementalByTimeRangeKind
  | IncrementalByUniqueKeyKind _ _ _ => Class_IncrementalByUniqueKeyKind
  | ViewKind _ => Class_ViewKind
  | SeedKind _ _ => Class_SeedKind
  end.

(** ** The shared validators of [config/common.py] *)

Section Common.
Variable object_str : value -> string.

Definition not_a_task_count (v : value) : exn :=
  ConfigError
    ("The number of concurrent tasks must be an integer value greater than 0. '"
     ++ py_str object_str v ++ "' was provided").

Definition _concurrent_tasks_validator (v : value) : outcome value :=
  v <- match v with
       | VStr _ | VName _ => n <- py_int v ;; Return (VInt n)
       | _ => Return v
       end ;;
  match v with
  | VInt n => if n <=? 0 then Raise (not_a_task_count v) else Return v
  | VBool b =>
      if (if b then 1 else 0) <=? 0 then Raise (not_a_task_count v)
      else Return v
  | _ => Raise (not_a_task_count v)
  end.

End Common.

(** [[(key, value) for key, value in v.items()]] for a [dict], the value
    itself otherwise. *)
Definition _http_headers_validator (v : value) : value :=
  match v with
  | VDict entries => VList (pairs entries)
  | _ => v
  end.

(** ** Vocabulary of the further statements *)

Definition non_negative (o : option Z) : Prop :=
  match o with Some n => 0 <= n | None => True end.

(** What the validators of the family establish of an instance: sizes that
    are not negative, a batch size not below the lookback when neither is
    zero, a time column with a name, a positive batch size of a seed. *)
Definition validated_instance (k : ModelKind) : Prop :=
  match k with
  | Bare _ | ViewKind _ => True
  | IncrementalByTimeRangeKind b l tc =>
      non_negative b /\ non_negative l
      /\ is_set b && is_set l && less b l = false
      /\ nonempty (column tc) = true
  | IncrementalByUniqueKeyKind b l _ =>
      non_negative b /\ non_negative l
      /\ is_set b && is_set l && less b l = false
  | SeedKind _ b => 0 < b
  end.

(** [isinstance(v, str)] *)
Definition is_text (v : value) : bool :=
  match v with VStr _ | VName _ => true | _ => false end.

(** The error reported for a seed whose [batch_size] is no integer. *)
Definition integer_value_expected : exn :=
  ValidationError
    [LineError ["batch_size"]
       (value_error (ValueError "Seed batch size must be an integer value"))].

(** Python truth of what is given as [materialized]. *)
Definition materialized_of (v : value) : bool :=
  match v with
  | VExp e => truthy (this_of e)
  | _ => truthy v
  end.

(** [isinstance(e, d.ModelKind)] *)
Definition is_kind_node (e : Expression) : bool :=
  match e with ModelKindNode _ _ => true | _ => false end.

(** * Properties *)

(** ** Text *)

Example upper_mixed :
  upper "Incremental_by_time_range" = "INCREMENTAL_BY_TIME_RANGE".
Proof. reflexivity. Qed.

Example int_of_text_samples :
  map int_of_text
    [" 42 "; "-7"; "+1_000"; "007"; EmptyString; "1__0"; "_1"; "1_"; "- 5";
     "4 2"; "abc"]
  = [Some 42; Some (-7); Some 1000; Some 7; None; None; None; None; None;
     None; None].
Proof. reflexivity. Qed.

Example int_of_text_separator :
  int_of_text (String (ascii_of_nat 28) "5") = None
  /\ int_of_text (String (ascii_of_nat 11) "5") = Some 5.
Proof. split; reflexivity. Qed.

Example str_of_int_samples :
  map str_of_int [0; 5; -5; 1000] = ["0"; "5"; "-5"; "1000"].
Proof. reflexivity. Qed.

Lemma rstrip_plain (cs : list ascii) :
  forallb (fun c => negb (is_space c)) cs = true -> rstrip cs = cs.
Proof.
  induction cs as [|c rest IH]; simpl; [reflexivity|].
  intros H. apply andb_true_iff in H as [Hc Hrest].
  rewrite (IH Hrest). destruct rest; [|reflexivity].
  apply negb_true_iff in Hc. now rewrite Hc.
Qed.

Lemma decimal_no_space (u : Decimal.uint) :
  forallb (fun c => negb (is_space c))
    (list_ascii_of_string (NilEmpty.string_of_uint u)) = true.
Proof. induction u; simpl; auto. Qed.

Lemma digits_decimal (u : Decimal.uint) :
  digits (list_ascii_of_string (NilEmpty.string_of_uint u)) true = Some u.
Proof. induction u; simpl; try rewrite IHu; reflexivity. Qed.

Lemma digits_decimal_first (u : Decimal.uint) :
  u <> Decimal.Nil ->
  digits (list_ascii_of_string (NilEmpty.string_of_uint u)) false = Some u.
Proof.
  destruct u; intros H; try congruence; simpl;
    rewrite digits_decimal; reflexivity.
Qed.

Lemma lstrip_decimal (u : Decimal.uint) :
  lstrip (list_ascii_of_string (NilEmpty.string_of_uint u))
  = list_ascii_of_string (NilEmpty.string_of_uint u).
Proof. destruct u; reflexivity. Qed.

Lemma int_of_text_decimal (u : Decimal.uint) :
  u <> Decimal.Nil ->
  int_of_text (NilEmpty.string_of_uint u) = Some (Z.of_uint u).
Proof.
  intros H. unfold int_of_text. rewrite lstrip_decimal.
  assert (E : digits (rstrip (list_ascii_of_string (NilEmpty.string_of_uint u))) false
              = Some u).
  { rewrite rstrip_plain by apply decimal_no_space.
    now apply digits_decimal_first. }
  destruct u; try congruence; simpl in *; rewrite E; reflexivity.
Qed.

Lemma of_uint_to_uint (p : positive) : Z.of_uint (Pos.to_uint p) = Z.pos p.
Proof. unfold Z.of_uint. now rewrite DecimalPos.Unsigned.of_to. Qed.

(** [int(str(n)) == n] *)
Lemma int_of_text_str_of_int (n : Z) : int_of_text (str_of_int n) = Some n.
Proof.
  destruct n as [|p|p]; [reflexivity| |].
  - unfold str_of_int; simpl. unfold NilZero.string_of_uint.
    pose proof (DecimalPos.Unsigned.to_uint_nonnil p) as Hnil.
    destruct (Pos.to_uint p) eqn:E; try congruence;
      rewrite <- E; rewrite int_of_text_decimal by (rewrite E; discriminate);
      now rewrite of_uint_to_uint.
  - unfold str_of_int; simpl. unfold NilZero.string_of_uint.
    pose proof (DecimalPos.Unsigned.to_uint_nonnil p) as Hnil.
    assert (S : NilEmpty.string_of_uint (Pos.to_uint p)
                = match Pos.to_uint p with
                  | Decimal.Nil => "0"
                  | _ => NilEmpty.string_of_uint (Pos.to_uint p)
                  end) by (destruct (Pos.to_uint p); congruence).
    rewrite <- S. unfold int_of_text. simpl.
    rewrite rstrip_plain by apply decimal_no_space.
    rewrite digits_decimal_first by assumption. simpl.
    now rewrite of_uint_to_uint.
Qed.

Lemma is_int_Literal_number (n : Z) : is_int (Literal_number n) = true.
Proof. unfold Literal_number, is_int. now rewrite int_of_text_str_of_int. Qed.

(** ** The tags and their predicates *)

Lemma lookup_member_value_of (n : ModelKindName) :
  lookup_member (value_of n) = Some n.
Proof. destruct n; reflexivity. Qed.

Lemma lookup_member_Some (text : string) (n : ModelKindName) :
  lookup_member text = Some n <-> text = value_of n.
Proof.
  split.
  - unfold lookup_member. intros H. apply find_some in H as [_ H].
    symmetry. now apply String.eqb_eq.
  - intros ->. apply lookup_member_value_of.
Qed.

Lemma upper_value_of (n : ModelKindName) : upper (value_of n) = value_of n.
Proof. destruct n; reflexivity. Qed.


(** ** The classifier on typed input and on text *)

Section Classifier.
Variable object_str : value -> string.
Local Abbreviation classify := (_model_kind_validator object_str).

Lemma new_bare (n : ModelKindName) :
  new object_str Class_ModelKind [("name", VName n)] = Return (Bare n).
Proof. reflexivity. Qed.

Lemma classify_text (s : string) :
  classify (VStr s)
  = match lookup_member (upper s) with
    | Some n => Return (Some (Bare n))
    | None => Raise (ConfigError ("Invalid model kind '" ++ upper s ++ "'"))
    end.
Proof.
  unfold _model_kind_validator, py_str.
  destruct (lookup_member (upper s)) as [n|]; [|reflexivity].
  now rewrite new_bare.
Qed.

(** C5 -- The classifier returns an instance of the family as it is, for
    every instance whatever its field values (no validator runs), and
    returns no kind, not an error, for [None]. *)
Theorem classify_typed_identity :
  (forall k : ModelKind, classify (VKind k) = Return (Some k))
  /\ classify VNone = Return None.
Proof. split; reflexivity. Qed.

(** C4, as the code has it -- A string of ASCII characters is classified by
    its upper-cased text: when that is one of the seven tag strings the
    result is the bare [ModelKind] with the tag (so each tag string itself is
    accepted), and otherwise classification raises [ConfigError] with the
    message [Invalid model kind '<TEXT>'], where [<TEXT>] is the upper-cased
    text. *)
Theorem classify_text_by_upper :
  (forall n : ModelKindName,
      classify (VStr (value_of n)) = Return (Some (Bare n)))
  /\ (forall s : string,
         is_ascii s = true ->
         classify (VStr s)
         = match lookup_member (upper s) with
           | Some n => Return (Some (Bare n))
           | None =>
               Raise (ConfigError ("Invalid model kind '" ++ upper s ++ "'"))
           end)
  /\ (forall (text : string) (n : ModelKindName),
         lookup_member text = Some n <-> text = value_of n).
Proof.
  split; [|split].
  - intros n. rewrite classify_text, upper_value_of.
    now rewrite lookup_member_value_of.
  - intros s _. apply classify_text.
  - apply lookup_member_Some.
Qed.
End Classifier.

Lemma classify_text_by_upper_witness :
  _model_kind_validator sample_str (VStr "Embedded")
  = Return (Some (Bare EMBEDDED))
  /\ _model_kind_validator sample_str (VStr "table")
     = Raise (ConfigError "Invalid model kind 'TABLE'").
Proof.
  destruct (classify_text_by_upper sample_str) as [_ [Htext _]].
  split.
  - apply (Htext "Embedded"). reflexivity.
  - apply (Htext "table"). reflexivity.
Defined.

(** C4, as stated, fails -- Whatever the outside functions are, it is not
    the case that exactly the seven tag strings are accepted and that every
    other string is rejected with a message quoting it as given: ["full"] is
    none of the seven and is classified as the bare kind FULL. *)
Lemma lower_case_tag_is_accepted :
  ~ exists object_str : value -> string,
      forall s : string,
        (In s (map value_of members) ->
         exists n, value_of n = s
                   /\ _model_kind_validator object_str (VStr s)
                      = Return (Some (Bare n)))
        /\ (~ In s (map value_of members) ->
            _model_kind_validator object_str (VStr s)
            = Raise (ConfigError ("Invalid model kind '" ++ s ++ "'"))).
Proof.
  intros [object_str H]. destruct (H "full") as [_ Hno].
  assert (Hout : ~ In "full" (map value_of members)).
  { simpl. intros D. repeat destruct D as [D|D]; try discriminate D; exact D. }
  specialize (Hno Hout). rewrite classify_text in Hno. discriminate Hno.
Qed.

(** The message names the upper-cased text, not the text as given. *)
Example invalid_kind_message :
  _model_kind_validator sample_str (VStr "table")
  = Raise (ConfigError "Invalid model kind 'TABLE'").
Proof. reflexivity. Qed.

(** ** Time columns *)

Lemma TimeColumn_init_column (s : string) :
  TimeColumn_init [("column", VStr s)]
  = if nonempty s then Return (mkTimeColumn s None)
    else Raise (ConfigError "Time Column cannot be empty.").
Proof. destruct s; reflexivity. Qed.

Lemma TimeColumn_init_pair (col fmt : string) :
  TimeColumn_init [("column", VStr col); ("format", VStr fmt)]
  = if nonempty col then Return (mkTimeColumn col (Some fmt))
    else Raise (ConfigError "Time Column cannot be empty.").
Proof. destruct col; reflexivity. Qed.

Lemma time_column_of_text (s : string) :
  _time_column_validator (VStr s) = parsed s None.
Proof.
  unfold _time_column_validator, parsed. rewrite TimeColumn_init_column.
  destruct (nonempty s); reflexivity.
Qed.

Lemma time_column_of_expression (e : Expression) :
  _time_column_validator (VExp e)
  = match e with
    | Tuple [] =>
        Raise (ValidationError [LineError ["column"] missing])
    | Tuple [c] => parsed (name c) None
    | Tuple (c :: f :: _) => parsed (name c) (Some (name f))
    | _ => parsed (name e) None
    end.
Proof.
  assert (single : forall s, (tc <- TimeColumn_init [("column", VStr s)] ;;
                              Return (VTimeColumn tc)) = parsed s None).
  { intros s. rewrite TimeColumn_init_column. unfold parsed.
    destruct (nonempty s); reflexivity. }
  destruct e as [s q|s b|s|b|this tbl|es|a v|s es]; try apply single.
  destruct es as [|c [|f rest]]; [reflexivity|apply single|].
  unfold _time_column_validator. simpl combine.
  rewrite TimeColumn_init_pair. unfold parsed.
  destruct (nonempty (name c)); reflexivity.
Qed.

(** C6 -- The shapes of a time column.  A plain string, an identifier or any
    other expression node that is no tuple, and a one-element tuple all parse
    to the record with that column text and no format; a tuple of a column
    and a format parses to the record with both; so equal column and format
    contents give equal records.  Whenever the column text is empty the
    construction raises [ConfigError] with [Time Column cannot be empty.] *)
Theorem time_column_shapes :
  (forall s : string, _time_column_validator (VStr s) = parsed s None)
  /\ (forall (s : string) (q : bool),
         _time_column_validator (VExp (Identifier s q)) = parsed s None)
  /\ (forall e : Expression,
         match e with
         | Tuple _ => True
         | _ => _time_column_validator (VExp e) = parsed (name e) None
         end)
  /\ (forall c : Expression,
         _time_column_validator (VExp (Tuple [c])) = parsed (name c) None)
  /\ (forall (c f : Expression) (rest : list Expression),
         _time_column_validator (VExp (Tuple (c :: f :: rest)))
         = parsed (name c) (Some (name f)))
  /\ (forall (c : ascii) (s : string) (fmt : option string),
         parsed (String c s) fmt
         = Return (VTimeColumn (mkTimeColumn (String c s) fmt)))
  /\ (forall fmt : option string,
         parsed EmptyString fmt = Raise (ConfigError "Time Column cannot be empty.")).
Proof.
  repeat split.
  - apply time_column_of_text.
  - intros s q. apply (time_column_of_expression (Identifier s q)).
  - intros e. pose proof (time_column_of_expression e) as H.
    destruct e; try exact H; exact I.
  - intros c. apply (time_column_of_expression (Tuple [c])).
  - intros c f rest. apply (time_column_of_expression (Tuple (c :: f :: rest))).
Qed.

Example time_column_same_record :
  _time_column_validator (VStr "ds") = Return (VTimeColumn (mkTimeColumn "ds" None))
  /\ _time_column_validator (VExp (Column (Identifier "ds" false) None))
     = _time_column_validator (VStr "ds")
  /\ _time_column_validator (VExp (Tuple [Identifier "ds" true]))
     = _time_column_validator (VStr "ds")
  /\ _time_column_validator
       (VExp (Tuple [Column (Identifier "ds" false) None; Literal "%Y-%m-%d" true]))
     = Return (VTimeColumn (mkTimeColumn "ds" (Some "%Y-%m-%d"))).
Proof. repeat split. Qed.

(** ** Seeds, unique keys and the incremental kinds *)

Section Constructors.
Variable object_str : value -> string.
Local Abbreviation new' := (new object_str).

Lemma seed_of_int (p : string) (n : Z) :
  new' Class_SeedKind [("path", VStr p); ("batch_size", VInt n)]
  = if n <=? 0 then Raise not_positive else Return (SeedKind p n).
Proof.
  unfold new, SeedKind_init, field. simpl dict_get. cbn -[Z.leb].
  unfold check_positive. destruct (n <=? 0); reflexivity.
Qed.

Lemma seed_of_literal (p : string) (n : Z) :
  new' Class_SeedKind
    [("path", VExp (Literal_string p)); ("batch_size", VExp (Literal_number n))]
  = if n <=? 0 then Raise not_positive else Return (SeedKind p n).
Proof.
  unfold new, SeedKind_init, field. simpl dict_get.
  unfold _parse_batch_size. rewrite is_int_Literal_number.
  unfold Literal_number at 1. simpl name. unfold py_int.
  rewrite int_of_text_str_of_int. cbn -[Z.leb].
  unfold check_positive. destruct (n <=? 0); reflexivity.
Qed.

(** C7 -- The bounds of a seed's batch size.  With [batch_size] 0 or -5,
    and with any integer that is not positive, the construction fails and
    the error reported for the field is the validator's
    [Seed batch size must be a positive integer]; with [batch_size] 1, with
    any positive integer, and with [batch_size] left out (then 1000) it
    succeeds. *)
Theorem seed_batch_size_bounds :
  (forall p : string,
      new' Class_SeedKind [("path", VStr p); ("batch_size", VInt 0)]
      = Raise not_positive
      /\ new' Class_SeedKind [("path", VStr p); ("batch_size", VInt (-5))]
         = Raise not_positive
      /\ new' Class_SeedKind [("path", VStr p); ("batch_size", VInt 1)]
         = Return (SeedKind p 1)
      /\ new' Class_SeedKind [("path", VStr p)] = Return (SeedKind p 1000))
  /\ (forall (p : string) (n : Z),
         new' Class_SeedKind [("path", VStr p); ("batch_size", VInt n)]
         = if n <=? 0 then Raise not_positive else Return (SeedKind p n))
  /\ (forall (p : string) (n : Z),
         new' Class_SeedKind
           [("path", VExp (Literal_string p));
            ("batch_size", VExp (Literal_number n))]
         = if n <=? 0 then Raise not_positive else Return (SeedKind p n)).
Proof.
  split; [|split].
  - intros p. repeat split; try apply (seed_of_int p).
  - apply seed_of_int.
  - apply seed_of_literal.
Qed.

Lemma finish_Return {A : Type} (fields : list string) (kwargs : dict)
    (r : validated A) (a : A) :
  finish fields kwargs r = Return a -> r = Valid a.
Proof.
  unfold finish. destruct r as [x|errs], (extras fields kwargs);
    intros H; try discriminate H. now injection H as ->.
Qed.

Lemma parse_batch_size_positive (v w : value) (n : Z) :
  _parse_batch_size v = Return w -> as_int w = Return (Valid n) -> 0 < n.
Proof.
  unfold _parse_batch_size, check_positive. intros P T.
  destruct v as [| [|] |k| | | | | |e| |]; cbn -[Z.leb] in P; try discriminate P.
  - injection P as <-. cbn in T. injection T as <-. lia.
  - destruct (k <=? 0) eqn:E; [discriminate P|].
    injection P as <-. cbn in T. injection T as <-. lia.
  - destruct (is_int e); [|discriminate P].
    destruct (int_of_text (name e)) as [k|]; cbn -[Z.leb] in P; [|discriminate P].
    destruct (k <=? 0) eqn:E; [discriminate P|].
    injection P as <-. cbn in T. injection T as <-. lia.
Qed.

(** A seed that was constructed has a positive batch size. *)
Lemma seed_is_positive (kwargs : dict) (p : string) (b : Z) :
  new' Class_SeedKind kwargs = Return (SeedKind p b) -> 0 < b.
Proof.
  unfold new, SeedKind_init. intros H.
  destruct (field kwargs "name" _ _ _) as [n|]; [|discriminate H].
  destruct (field kwargs "path" _ _ _) as [q|]; [|discriminate H].
  destruct (field kwargs "batch_size" _ _ _) as [r|] eqn:F; [|discriminate H].
  simpl in H. apply finish_Return in H.
  destruct n as [n|], q as [q|], r as [r|]; try discriminate H.
  injection H as -> ->.
  unfold field in F.
  destruct (match dict_get kwargs "batch_size" with
            | Some v => Some v
            | None => Some (VInt 1000)
            end) as [v|]; [|discriminate F].
  destruct (_parse_batch_size v) as [w|e] eqn:P.
  - apply (parse_batch_size_positive v w b P).
    destruct (as_int w) as [[x|errs]|e] eqn:T; cbn in F;
      try discriminate F. now injection F as ->.
  - destruct e; cbn in F; discriminate F.
Qed.

(** Unique keys *)

Lemma items_of_texts (ks : list string) (index : Z) :
  items_of as_str index (map VStr ks) = Return (Valid ks).
Proof.
  revert index. induction ks as [|k ks IH]; intros index; [reflexivity|].
  simpl. rewrite IH. reflexivity.
Qed.

Lemma this_of_identifiers (keys : list (string * bool)) :
  map this_of (identifiers keys) = map VStr (map fst keys).
Proof. induction keys as [|kq keys IH]; simpl; [|rewrite IH]; reflexivity. Qed.

Lemma texts_of_texts (ks : list string) :
  map (fun i => match i with
                | VExp (Identifier this _) => VStr this
                | _ => VStr (py_str object_str i)
                end) (map VStr ks)
  = map VStr ks.
Proof. induction ks as [|k ks IH]; simpl; [|rewrite IH]; reflexivity. Qed.

Lemma unique_key_of_list (ks : list string) :
  _parse_unique_key object_str (VList (map VStr ks)) = Return (VList (map VStr ks))
  /\ _parse_unique_key object_str (VTuple (map VStr ks))
     = Return (VList (map VStr ks)).
Proof. split; simpl; now rewrite texts_of_texts. Qed.

Lemma unique_key_kind (shape : value) (ks : list string) :
  _parse_unique_key object_str shape = Return (VList (map VStr ks)) ->
  new' Class_IncrementalByUniqueKeyKind [("unique_key", shape)]
  = Return (IncrementalByUniqueKeyKind None None ks).
Proof.
  intros H. unfold new, IncrementalByUniqueKeyKind_init, field.
  cbn -[_parse_unique_key items_of]. rewrite H.
  cbn -[items_of]. rewrite items_of_texts. reflexivity.
Qed.

(** C8 -- Normalisation of the unique key.  A single identifier gives the
    one-element sequence of its text; a tuple of identifiers, a list of
    strings and a tuple of strings naming the same keys in the same order
    all give the same sequence of strings, and the kind built from any of
    them has that sequence as its [unique_key]. *)
Theorem unique_key_normalization :
  (forall (k : string) (q : bool),
      _parse_unique_key object_str (VExp (Identifier k q))
      = Return (VList [VStr k])
      /\ new' Class_IncrementalByUniqueKeyKind
           [("unique_key", VExp (Identifier k q))]
         = Return (IncrementalByUniqueKeyKind None None [k]))
  /\ (forall keys : list (string * bool),
         let ks := map fst keys in
         _parse_unique_key object_str (VExp (Tuple (identifiers keys)))
         = Return (VList (map VStr ks))
         /\ _parse_unique_key object_str (VList (map VStr ks))
            = Return (VList (map VStr ks))
         /\ _parse_unique_key object_str (VTuple (map VStr ks))
            = Return (VList (map VStr ks))
         /\ new' Class_IncrementalByUniqueKeyKind
              [("unique_key", VExp (Tuple (identifiers keys)))]
            = Return (IncrementalByUniqueKeyKind None None ks)
         /\ new' Class_IncrementalByUniqueKeyKind
              [("unique_key", VList (map VStr ks))]
            = Return (IncrementalByUniqueKeyKind None None ks)
         /\ new' Class_IncrementalByUniqueKeyKind
              [("unique_key", VTuple (map VStr ks))]
            = Return (IncrementalByUniqueKeyKind None None ks)).
Proof.
  split.
  - intros k q. split; [reflexivity|].
    apply (unique_key_kind _ [k]). reflexivity.
  - intros keys ks.
    assert (T : _parse_unique_key object_str (VExp (Tuple (identifiers keys)))
                = Return (VList (map VStr ks))).
    { simpl. now rewrite this_of_identifiers. }
    destruct (unique_key_of_list ks) as [L U].
    repeat split; try assumption; now apply unique_key_kind.
Qed.
End Constructors.

(** ** The incremental kinds *)

Section Incremental.
Variable object_str : value -> string.
Local Abbreviation new' := (new object_str).

Lemma int_validator_int (field_name : string) (n : Z) :
  _int_validator field_name (VInt n)
  = if n <? 0 then Raise (invalid_value n field_name) else Return (VInt n).
Proof. reflexivity. Qed.

Lemma time_range_outcome (col : string) (b l : Z) :
  nonempty col = true ->
  new' Class_IncrementalByTimeRangeKind (time_range_args col (VInt b) (VInt l))
  = incremental_outcome b l
      (IncrementalByTimeRangeKind (Some b) (Some l) (mkTimeColumn col None)).
Proof.
  intros Hcol. unfold new, IncrementalByTimeRangeKind_init, field,
    time_range_args, incremental_outcome.
  cbn -[_int_validator _time_column_validator Z.ltb Z.eqb].
  rewrite !int_validator_int.
  destruct (b <? 0); [reflexivity|].
  cbn -[_int_validator _time_column_validator Z.ltb Z.eqb].
  rewrite ?int_validator_int.
  destruct (l <? 0); [reflexivity|].
  cbn -[_time_column_validator Z.ltb Z.eqb].
  rewrite time_column_of_text. unfold parsed. rewrite Hcol.
  cbn -[Z.ltb Z.eqb after]. unfold after, _kind_validator, is_set, less.
  destruct (negb (b =? 0) && negb (l =? 0) && (b <? l)); reflexivity.
Qed.

Lemma unique_key_outcome (ks : list string) (b l : Z) :
  new' Class_IncrementalByUniqueKeyKind (unique_key_args ks (VInt b) (VInt l))
  = incremental_outcome b l
      (IncrementalByUniqueKeyKind (Some b) (Some l) ks).
Proof.
  unfold new, IncrementalByUniqueKeyKind_init, field,
    unique_key_args, incremental_outcome.
  cbn -[_int_validator _parse_unique_key items_of Z.ltb Z.eqb].
  rewrite !int_validator_int.
  destruct (b <? 0); [reflexivity|].
  cbn -[_int_validator _parse_unique_key items_of Z.ltb Z.eqb].
  rewrite ?int_validator_int.
  destruct (l <? 0); [reflexivity|].
  cbn -[_parse_unique_key items_of Z.ltb Z.eqb].
  destruct (unique_key_of_list object_str ks) as [-> _].
  cbn -[items_of Z.ltb Z.eqb]. rewrite items_of_texts.
  cbn -[Z.ltb Z.eqb after]. unfold after, _kind_validator, is_set, less.
  destruct (negb (b =? 0) && negb (l =? 0) && (b <? l)); reflexivity.
Qed.

(** For non-negative sizes the construction fails exactly when
    [0 < batch_size < lookback]. *)
Lemma incremental_outcome_nonnegative (b l : Z) (built : ModelKind) :
  0 <= b -> 0 <= l ->
  incremental_outcome b l built
  = if (0 <? b) && (b <? l) then Raise less_than_lookback else Return built.
Proof.
  intros Hb Hl. unfold incremental_outcome.
  destruct (b <? 0) eqn:E1; [lia|]. destruct (l <? 0) eqn:E2; [lia|].
  destruct (b =? 0) eqn:E3, (l =? 0) eqn:E4, (b <? l) eqn:E5,
    (0 <? b) eqn:E6; simpl; try reflexivity; lia.
Qed.

(** C2, at the input where the code departs from it -- With
    [batch_size = 0] and [lookback = 5] the batch size is below the
    lookback, and the construction of either incremental kind returns the
    instance: the check reads [batch_size] by its truth value, and 0 is
    false. *)
Theorem zero_batch_size_passes_the_check :
  new' Class_IncrementalByTimeRangeKind (time_range_args "ds" (VInt 0) (VInt 5))
  = Return (IncrementalByTimeRangeKind (Some 0) (Some 5) (mkTimeColumn "ds" None))
  /\ new' Class_IncrementalByUniqueKeyKind
       (unique_key_args ["id"] (VInt 0) (VInt 5))
     = Return (IncrementalByUniqueKeyKind (Some 0) (Some 5) ["id"]).
Proof. split; reflexivity. Qed.

(** Away from a zero batch size the check is as C2 says. *)
Lemma incremental_invariant (col : string) (ks : list string) (b l : Z) :
  nonempty col = true -> 0 <= l ->
  (0 < b -> b < l ->
   new' Class_IncrementalByTimeRangeKind (time_range_args col (VInt b) (VInt l))
   = Raise less_than_lookback
   /\ new' Class_IncrementalByUniqueKeyKind (unique_key_args ks (VInt b) (VInt l))
      = Raise less_than_lookback)
  /\ (l <= b ->
      new' Class_IncrementalByTimeRangeKind (time_range_args col (VInt b) (VInt l))
      = Return (IncrementalByTimeRangeKind (Some b) (Some l)
                  (mkTimeColumn col None))
      /\ new' Class_IncrementalByUniqueKeyKind
           (unique_key_args ks (VInt b) (VInt l))
         = Return (IncrementalByUniqueKeyKind (Some b) (Some l) ks)).
Proof.
  intros Hcol Hl. split.
  - intros Hb Hbl. rewrite time_range_outcome, unique_key_outcome by assumption.
    rewrite !incremental_outcome_nonnegative by lia.
    assert (E : (0 <? b) && (b <? l) = true)
      by (apply andb_true_iff; split; lia).
    rewrite E. split; reflexivity.
  - intros Hbl. rewrite time_range_outcome, unique_key_outcome by assumption.
    rewrite !incremental_outcome_nonnegative by lia.
    assert (E : (0 <? b) && (b <? l) = false)
      by (apply andb_false_iff; right; lia).
    rewrite E. split; reflexivity.
Qed.
End Incremental.

(** ** The kinds of error *)

Section Errors.
Variable object_str : value -> string.
Local Abbreviation new' := (new object_str).
Local Abbreviation classify := (_model_kind_validator object_str).

Lemma negative_batch_size (col : string) (ks : list string) (n : Z) (l : value) :
  n < 0 ->
  new' Class_IncrementalByTimeRangeKind (time_range_args col (VInt n) l)
  = Raise (invalid_value n "batch_size")
  /\ new' Class_IncrementalByUniqueKeyKind (unique_key_args ks (VInt n) l)
     = Raise (invalid_value n "batch_size").
Proof.
  intros Hn. apply Z.ltb_lt in Hn.
  unfold new, IncrementalByTimeRangeKind_init, IncrementalByUniqueKeyKind_init,
    field, time_range_args, unique_key_args.
  cbn -[_int_validator _time_column_validator _parse_unique_key].
  rewrite !int_validator_int, Hn. split; reflexivity.
Qed.

Lemma negative_lookback (col : string) (ks : list string) (b n : Z) :
  0 <= b -> n < 0 ->
  new' Class_IncrementalByTimeRangeKind (time_range_args col (VInt b) (VInt n))
  = Raise (invalid_value n "lookback")
  /\ new' Class_IncrementalByUniqueKeyKind
       (unique_key_args ks (VInt b) (VInt n))
     = Raise (invalid_value n "lookback").
Proof.
  intros Hb Hn. apply Z.ltb_lt in Hn. apply Z.ltb_ge in Hb.
  unfold new, IncrementalByTimeRangeKind_init, IncrementalByUniqueKeyKind_init,
    field, time_range_args, unique_key_args.
  cbn -[_int_validator _time_column_validator _parse_unique_key].
  rewrite !int_validator_int, Hb.
  cbn -[_int_validator _time_column_validator _parse_unique_key].
  rewrite ?int_validator_int, Hn. split; reflexivity.
Qed.

Lemma int_validator_text (field_name text : string) :
  int_of_text text = None ->
  _int_validator field_name (VStr text) = Raise (InvalidLiteral text).
Proof. intros H. unfold _int_validator, py_int. now rewrite H. Qed.

Lemma text_batch_size (col : string) (ks : list string) (text : string) :
  nonempty col = true -> int_of_text text = None ->
  new' Class_IncrementalByTimeRangeKind (time_range_args col (VStr text) VNone)
  = Raise (invalid_literal "batch_size" text)
  /\ new' Class_IncrementalByUniqueKeyKind
       (unique_key_args ks (VStr text) VNone)
     = Raise (invalid_literal "batch_size" text).
Proof.
  intros Hcol Htext.
  unfold new, IncrementalByTimeRangeKind_init, IncrementalByUniqueKeyKind_init,
    field, time_range_args, unique_key_args.
  cbn -[_int_validator _time_column_validator _parse_unique_key items_of].
  rewrite !int_validator_text by assumption.
  cbn -[_time_column_validator _parse_unique_key items_of].
  rewrite time_column_of_text. unfold parsed. rewrite Hcol.
  destruct (unique_key_of_list object_str ks) as [-> _].
  cbn -[items_of]. rewrite items_of_texts. split; reflexivity.
Qed.

Lemma text_lookback (col : string) (ks : list string) (text : string) :
  nonempty col = true -> int_of_text text = None ->
  new' Class_IncrementalByTimeRangeKind (time_range_args col VNone (VStr text))
  = Raise (invalid_literal "lookback" text)
  /\ new' Class_IncrementalByUniqueKeyKind
       (unique_key_args ks VNone (VStr text))
     = Raise (invalid_literal "lookback" text).
Proof.
  intros Hcol Htext.
  unfold new, IncrementalByTimeRangeKind_init, IncrementalByUniqueKeyKind_init,
    field, time_range_args, unique_key_args.
  cbn -[_int_validator _time_column_validator _parse_unique_key items_of].
  rewrite !int_validator_text by assumption.
  cbn -[_time_column_validator _parse_unique_key items_of].
  rewrite time_column_of_text. unfold parsed. rewrite Hcol.
  destruct (unique_key_of_list object_str ks) as [-> _].
  cbn -[items_of]. rewrite items_of_texts. split; reflexivity.
Qed.

Lemma empty_time_column :
  TimeColumn_init [("column", VStr EmptyString)]
  = Raise (ConfigError "Time Column cannot be empty.")
  /\ new' Class_IncrementalByTimeRangeKind [("time_column", VStr EmptyString)]
     = Raise (ConfigError "Time Column cannot be empty.")
  /\ new' Class_IncrementalByTimeRangeKind
       [("time_column", VExp (Identifier EmptyString false))]
     = Raise (ConfigError "Time Column cannot be empty.").
Proof. repeat split. Qed.

(** C3, as the code has it -- The failures of validation that the design
    lists surface as follows, each with its message.  [ConfigError] is
    raised for an ASCII text whose upper-cased form is no tag, for an empty
    time-column name and for a negative [batch_size] or [lookback].
    pydantic's [ValidationError], with a line that carries the validator's
    [ValueError], is raised for a [batch_size] or [lookback] given as an
    ASCII text that is no integer, for a non-zero [batch_size] below
    [lookback], and for a seed [batch_size] that is not positive. *)
Theorem error_kinds :
  (forall s : string,
      is_ascii s = true ->
      lookup_member (upper s) = None ->
      classify (VStr s)
      = Raise (ConfigError ("Invalid model kind '" ++ upper s ++ "'")))
  /\ (TimeColumn_init [("column", VStr EmptyString)]
      = Raise (ConfigError "Time Column cannot be empty.")
      /\ new' Class_IncrementalByTimeRangeKind [("time_column", VStr EmptyString)]
         = Raise (ConfigError "Time Column cannot be empty."))
  /\ (forall (col : string) (ks : list string) (n : Z) (l : value),
         n < 0 ->
         new' Class_IncrementalByTimeRangeKind (time_range_args col (VInt n) l)
         = Raise (invalid_value n "batch_size")
         /\ new' Class_IncrementalByUniqueKeyKind
              (unique_key_args ks (VInt n) l)
            = Raise (invalid_value n "batch_size"))
  /\ (forall (col : string) (ks : list string) (b n : Z),
         0 <= b -> n < 0 ->
         new' Class_IncrementalByTimeRangeKind
           (time_range_args col (VInt b) (VInt n))
         = Raise (invalid_value n "lookback")
         /\ new' Class_IncrementalByUniqueKeyKind
              (unique_key_args ks (VInt b) (VInt n))
            = Raise (invalid_value n "lookback"))
  /\ (forall (col : string) (ks : list string) (text : string),
         nonempty col = true ->
         is_ascii text = true -> int_of_text text = None ->
         new' Class_IncrementalByTimeRangeKind
           (time_range_args col (VStr text) VNone)
         = Raise (invalid_literal "batch_size" text)
         /\ new' Class_IncrementalByUniqueKeyKind
              (unique_key_args ks (VStr text) VNone)
            = Raise (invalid_literal "batch_size" text)
         /\ new' Class_IncrementalByTimeRangeKind
              (time_range_args col VNone (VStr text))
            = Raise (invalid_literal "lookback" text)
         /\ new' Class_IncrementalByUniqueKeyKind
              (unique_key_args ks VNone (VStr text))
            = Raise (invalid_literal "lookback" text))
  /\ (forall (col : string) (ks : list string) (b l : Z),
         nonempty col = true -> 0 < b -> b < l ->
         new' Class_IncrementalByTimeRangeKind
           (time_range_args col (VInt b) (VInt l))
         = Raise less_than_lookback
         /\ new' Class_IncrementalByUniqueKeyKind
              (unique_key_args ks (VInt b) (VInt l))
            = Raise less_than_lookback)
  /\ (forall (p : string) (n : Z),
         n <= 0 ->
         new' Class_SeedKind [("path", VStr p); ("batch_size", VInt n)]
         = Raise not_positive).
Proof.
  split; [|split; [|split; [|split; [|split; [|split]]]]].
  - intros s _ H. rewrite classify_text, H. reflexivity.
  - split; apply empty_time_column.
  - intros. now apply negative_batch_size.
  - intros. now apply negative_lookback.
  - intros col ks text Hcol _ Htext.
    destruct (text_batch_size col ks text Hcol Htext) as [B1 B2].
    destruct (text_lookback col ks text Hcol Htext) as [L1 L2].
    repeat split; assumption.
  - intros col ks b l Hcol Hb Hbl.
    apply (incremental_invariant object_str col ks b l Hcol); lia.
  - intros p n Hn. rewrite seed_of_int.
    apply Z.leb_le in Hn. now rewrite Hn.
Qed.
End Errors.

(** C3, as stated, fails -- Whatever the outside functions are, a seed with
    [batch_size = 0] is not refused with a [ConfigError]: its validator
    raises [ValueError], which validation reports as a [ValidationError]. *)
Lemma seed_failure_is_no_ConfigError :
  ~ exists (object_str : value -> string) (msg : string),
      new object_str Class_SeedKind
        [("path", VStr "seed.csv"); ("batch_size", VInt 0)]
      = Raise (ConfigError msg).
Proof. intros [object_str [msg H]]. discriminate H. Qed.

(** The same for the check of [batch_size] against [lookback]. *)
Example lookback_failure_is_ValidationError :
  new sample_str Class_IncrementalByTimeRangeKind
    (time_range_args "ds" (VInt 1) (VInt 2))
  = Raise (ValidationError
             [LineError []
                (value_error
                   (ValueError "batch_size cannot be less than lookback"))]).
Proof. reflexivity. Qed.

(** In a model-kind node a tag that is no member raises the [ValueError] of
    the enumeration, uncaught. *)
Example unknown_tag_in_node :
  _model_kind_validator sample_str (VExp (ModelKindNode "TABLE" []))
  = Raise (InvalidMember "TABLE").
Proof. reflexivity. Qed.

Lemma error_kinds_witness :
  _model_kind_validator sample_str (VStr "table")
  = Raise (ConfigError "Invalid model kind 'TABLE'")
  /\ new sample_str Class_IncrementalByTimeRangeKind
       (time_range_args "ds" (VInt (-1)) VNone)
     = Raise (invalid_value (-1) "batch_size")
  /\ new sample_str Class_IncrementalByUniqueKeyKind
       (unique_key_args ["id"] (VInt 3) (VInt (-2)))
     = Raise (invalid_value (-2) "lookback")
  /\ new sample_str Class_IncrementalByTimeRangeKind
       (time_range_args "ds" (VStr "ten") VNone)
     = Raise (invalid_literal "batch_size" "ten")
  /\ new sample_str Class_IncrementalByUniqueKeyKind
       (unique_key_args ["id"] (VInt 1) (VInt 2))
     = Raise less_than_lookback
  /\ new sample_str Class_SeedKind
       [("path", VStr "seed.csv"); ("batch_size", VInt (-5))]
     = Raise not_positive.
Proof.
  pose proof (error_kinds sample_str) as
    [Htag [_ [Hbatch [Hlook [Htext [Hless Hseed]]]]]].
  split; [|split; [|split; [|split; [|split]]]].
  - apply (Htag "table"); reflexivity.
  - apply (Hbatch "ds" ["id"] (-1) VNone). lia.
  - apply (Hlook "ds" ["id"] 3 (-2)); lia.
  - apply (proj1 (Htext "ds" ["id"] "ten" eq_refl eq_refl eq_refl)).
  - apply (Hless "ds" ["id"] 1 2); [reflexivity|lia|lia].
  - apply (Hseed "seed.csv" (-5)). lia.
Defined.

(** ** Extra keys *)

Lemma fails_bind {A B : Type} (m : outcome A) (k : A -> outcome B) :
  (forall a, fails (k a)) -> fails (bind m k).
Proof. intros H. destruct m as [a|e]; [apply H|now exists e]. Qed.

Lemma fails_first {A B : Type} (m : outcome A) (k : A -> outcome B) :
  fails m -> fails (bind m k).
Proof. intros [e ->]. now exists e. Qed.

Lemma is_field_In (fields : list string) (key : string) :
  is_field fields key = true <-> In key fields.
Proof.
  unfold is_field. rewrite existsb_exists. split.
  - intros [x [Hin Heq]]. apply String.eqb_eq in Heq. now subst.
  - intros Hin. exists key. split; [assumption|apply String.eqb_refl].
Qed.

Lemma extras_In (fields : list string) (kwargs : dict) (key : string) :
  In key (keys kwargs) -> ~ In key fields ->
  In (LineError [key] extra_forbidden) (extras fields kwargs).
Proof.
  intros Hkey Hout. unfold extras. simpl.
  apply (in_map (fun k => LineError [k] extra_forbidden)).
  apply filter_In. split; [assumption|].
  destruct (is_field fields key) eqn:E; [|reflexivity].
  apply is_field_In in E. contradiction.
Qed.

(** With a key that names no field, the end of validation is a
    [ValidationError] that has a line for the key. *)
Lemma finish_extra {A : Type} (fields : list string) (kwargs : dict)
    (r : validated A) (key : string) :
  In key (keys kwargs) -> ~ In key fields ->
  exists errs, finish fields kwargs r = Raise (ValidationError errs)
               /\ In (LineError [key] extra_forbidden) errs.
Proof.
  intros Hkey Hout. pose proof (extras_In fields kwargs key Hkey Hout) as Hin.
  unfold finish. destruct (extras fields kwargs) as [|x more] eqn:E;
    [contradiction|].
  exists (errors_of r ++ x :: more)%list. split.
  - destruct r; reflexivity.
  - apply in_or_app. now right.
Qed.

Lemma finish_fails {A : Type} (fields : list string) (kwargs : dict)
    (r : validated A) (key : string) :
  In key (keys kwargs) -> ~ In key fields -> fails (finish fields kwargs r).
Proof.
  intros Hkey Hout.
  destruct (finish_extra fields kwargs r key Hkey Hout) as [errs [H _]].
  now exists (ValidationError errs).
Qed.

Section Extras.
Variable object_str : value -> string.

Lemma new_fails_on_extra (cls : klass) (kwargs : dict) (key : string) :
  In key (keys kwargs) -> ~ In key (all_fields cls) ->
  fails (new object_str cls kwargs).
Proof.
  intros Hkey Hout.
  destruct cls; unfold new, ModelKind_init, IncrementalByTimeRangeKind_init,
    IncrementalByUniqueKeyKind_init, ViewKind_init, SeedKind_init;
    repeat match goal with
           | |- fails (bind (finish _ _ _) _) => apply fails_first
           | |- fails (bind _ _) => apply fails_bind; intros ?
           end;
    now apply (finish_fails _ kwargs _ key).
Qed.

(** C10 -- Extra keys are refused.  Whatever class of the family is called
    on a mapping, a key of the mapping that is none of the class's declared
    field names makes the construction raise: no instance is returned and
    the key is not dropped. *)
Theorem extra_keys_are_refused (cls : klass) (kwargs : dict) (key : string) :
  In key (keys kwargs) -> ~ In key (all_fields cls) ->
  exists e, new object_str cls kwargs = Raise e.
Proof. apply new_fails_on_extra. Qed.

(** The keys that validation reports are the ones [extra_fields] computes. *)
Lemma extras_are_extra_fields (cls : klass) (kwargs : dict) :
  extras (all_fields cls) kwargs
  = map (fun k => LineError [k] extra_forbidden)
      (extra_fields cls (keys kwargs)).
Proof. reflexivity. Qed.

(** When the fields themselves are valid, the error is the
    [ValidationError] with the line of the extra key. *)
Example extra_key_line :
  new object_str Class_ViewKind [("materialized", VBool true); ("owner", VStr "x")]
  = Raise (ValidationError [LineError ["owner"] extra_forbidden]).
Proof. reflexivity. Qed.

(** The classifier on a mapping calls the class its [name] entry selects,
    so a key that no class declares is refused there as well. *)
Lemma classify_mapping_extra (kwargs : dict) (key : string) :
  In key (keys kwargs) -> (forall cls, ~ In key (all_fields cls)) ->
  exists e, _model_kind_validator object_str (VDict kwargs) = Raise e.
Proof.
  intros Hkey Hout. unfold _model_kind_validator. apply fails_first.
  destruct (specialised _) as [cls|];
    now apply (new_fails_on_extra _ kwargs key).
Qed.
End Extras.

Lemma extra_keys_are_refused_witness :
  exists e,
    new sample_str Class_SeedKind
      [("path", VStr "seed.csv"); ("batch_size", VInt 10); ("owner", VStr "x")]
    = Raise e.
Proof.
  apply (extra_keys_are_refused sample_str Class_SeedKind
           [("path", VStr "seed.csv"); ("batch_size", VInt 10);
            ("owner", VStr "x")] "owner").
  - simpl. tauto.
  - simpl. intros H. repeat destruct H as [H|H]; try discriminate H; exact H.
Defined.

(** ** Rendering and classifying again *)

Section Rendering.
Variable object_str : value -> string.
Variable to_column : string -> Expression.
Variable inverse_time_format : string -> option (string -> string).
Local Abbreviation new' := (new object_str).
Local Abbreviation classify := (_model_kind_validator object_str).
Local Abbreviation render :=
  (to_expression to_column inverse_time_format).

Lemma time_range_of_property (e : Expression) (tc : TimeColumn) :
  _time_column_validator (VExp e) = Return (VTimeColumn tc) ->
  new' Class_IncrementalByTimeRangeKind
    (props_of [Property (Text "time_column") e])
  = Return (IncrementalByTimeRangeKind None None tc).
Proof.
  intros H. unfold new, IncrementalByTimeRangeKind_init, field.
  cbn -[_time_column_validator]. rewrite H. reflexivity.
Qed.

Lemma seed_of_properties (p : string) (b : Z) :
  0 < b ->
  new' Class_SeedKind
    (props_of [Property (Node (Var "path")) (Literal_string p);
               Property (Node (Var "batch_size")) (Literal_number b)])
  = Return (SeedKind p b).
Proof.
  intros Hb. change (props_of _)
    with [("path", VExp (Literal_string p));
          ("batch_size", VExp (Literal_number b))].
  rewrite seed_of_literal.
  destruct (b <=? 0) eqn:E; [lia|reflexivity].
Qed.

Lemma classify_time_range_node (es : list Expression) :
  classify (VExp (ModelKindNode "INCREMENTAL_BY_TIME_RANGE" es))
  = (k <- new' Class_IncrementalByTimeRangeKind (props_of es) ;;
     Return (Some k)).
Proof. reflexivity. Qed.

Lemma classify_seed_node (es : list Expression) :
  classify (VExp (ModelKindNode "SEED" es))
  = (k <- new' Class_SeedKind (props_of es) ;; Return (Some k)).
Proof. reflexivity. Qed.

Lemma render_time_range (b l : option Z) (col : string) (fmt : option string) :
  render (IncrementalByTimeRangeKind b l (mkTimeColumn col fmt)) default_dialect
  = match fmt with
    | None => Return (ModelKindNode "INCREMENTAL_BY_TIME_RANGE"
                        [Property (Text "time_column") (to_column col)])
    | Some f =>
        if negb (nonempty f)
        then Return (ModelKindNode "INCREMENTAL_BY_TIME_RANGE"
                       [Property (Text "time_column") (to_column col)])
        else match inverse_time_format default_dialect with
             | None => Raise (UnknownDialect default_dialect)
             | Some rewrite =>
                 Return (ModelKindNode "INCREMENTAL_BY_TIME_RANGE"
                           [Property (Text "time_column")
                              (Tuple [to_column col;
                                      Literal_string (rewrite f)])])
             end
    end.
Proof.
  unfold to_expression, to_property, TimeColumn_to_expression. simpl.
  destruct fmt as [f|]; [|reflexivity].
  destruct (nonempty f); simpl; [|reflexivity].
  destruct (inverse_time_format default_dialect); reflexivity.
Qed.

(** C1, as the code has it -- Rendering an instance with the default
    dialect and classifying the node gives the instance back, with the same
    class and field values, for the instances that are rendered in full:
    the bare kinds FULL, EMBEDDED and EXTERNAL, a view that is not
    materialized, every seed, and a kind by time range that has neither
    [batch_size] nor [lookback], whose column is rendered as a node named
    by the column text and whose format, if present, is not empty and is
    unchanged by the default dialect. *)
Theorem rendering_round_trip (v : ModelKind) :
  rendered_in_full to_column inverse_time_format v ->
  renders_back object_str to_column inverse_time_format v.
Proof.
  unfold renders_back, rendered_in_full.
  destruct v as [n|b l [col fmt]|b l ks|m|p b]; cbn [column format].
  - intros [->|[->| ->]]; eexists; split; reflexivity.
  - intros [-> [-> [Hcol [Hname [Htuple Hfmt]]]]].
    rewrite render_time_range. destruct fmt as [fmt|].
    + destruct Hfmt as [Hne [rewrite [Hdialect Hsame]]].
      rewrite Hne, Hdialect. simpl negb. cbv iota.
      eexists. split; [reflexivity|]. rewrite classify_time_range_node.
      rewrite (time_range_of_property _ (mkTimeColumn col (Some fmt)));
        [reflexivity|].
      rewrite time_column_of_expression. simpl name at 2.
      rewrite Hname, Hsame. unfold parsed. now rewrite Hcol.
    + eexists. split; [reflexivity|]. rewrite classify_time_range_node.
      rewrite (time_range_of_property _ (mkTimeColumn col None));
        [reflexivity|].
      rewrite time_column_of_expression.
      destruct (to_column col); try discriminate Htuple;
        rewrite Hname; unfold parsed; now rewrite Hcol.
  - intros [].
  - intros ->. eexists. split; reflexivity.
  - intros Hb. eexists. split; [reflexivity|].
    change (ModelKind_to_expression (SeedKind p b) ?es)
      with (ModelKindNode "SEED" es).
    rewrite classify_seed_node. now rewrite seed_of_properties.
Qed.
End Rendering.

(** C1, as stated, fails -- Whatever the outside functions are, not every
    constructed instance is given back: a materialized view is rendered as the
    bare tag, which classifies as the view that is not materialized. *)
Lemma materialized_view_is_not_rendered :
  ~ exists (object_str : value -> string) (to_column : string -> Expression)
           (inverse_time_format : string -> option (string -> string)),
      forall v : ModelKind,
        (exists cls kwargs, new object_str cls kwargs = Return v) ->
        renders_back object_str to_column inverse_time_format v.
Proof.
  intros [object_str [to_column [inverse_time_format H]]].
  destruct (H (ViewKind true)) as [e [Hrender Hclassify]].
  - exists Class_ViewKind, [("materialized", VBool true)]. reflexivity.
  - injection Hrender as <-. discriminate Hclassify.
Qed.

(** The other ways in which a rendered instance is not given back. *)
Example view_comes_back_plain :
  to_expression sample_column sample_format (ViewKind true) default_dialect
  = Return (ModelKindNode "VIEW" [])
  /\ _model_kind_validator sample_str (VExp (ModelKindNode "VIEW" []))
     = Return (Some (ViewKind false)).
Proof. split; reflexivity. Qed.

Example bare_view_comes_back_as_view :
  new sample_str Class_ModelKind [("name", VStr "VIEW")] = Return (Bare VIEW)
  /\ to_expression sample_column sample_format (Bare VIEW) default_dialect
     = Return (ModelKindNode "VIEW" [])
  /\ _model_kind_validator sample_str (VExp (ModelKindNode "VIEW" []))
     = Return (Some (ViewKind false)).
Proof. repeat split. Qed.

Example unique_key_is_not_rendered :
  to_expression sample_column sample_format
    (IncrementalByUniqueKeyKind None None ["id"]) default_dialect
  = Return (ModelKindNode "INCREMENTAL_BY_UNIQUE_KEY" [])
  /\ _model_kind_validator sample_str
       (VExp (ModelKindNode "INCREMENTAL_BY_UNIQUE_KEY" []))
     = Raise (ValidationError [LineError ["unique_key"] missing]).
Proof. split; reflexivity. Qed.

Example batch_size_is_not_rendered :
  to_expression sample_column sample_format
    (IncrementalByTimeRangeKind (Some 7) None (mkTimeColumn "ds" None))
    default_dialect
  = Return (ModelKindNode "INCREMENTAL_BY_TIME_RANGE"
              [Property (Text "time_column") (Column (Identifier "ds" false) None)])
  /\ _model_kind_validator sample_str
       (VExp (ModelKindNode "INCREMENTAL_BY_TIME_RANGE"
                [Property (Text "time_column")
                   (Column (Identifier "ds" false) None)]))
     = Return (Some (IncrementalByTimeRangeKind None None (mkTimeColumn "ds" None))).
Proof. split; reflexivity. Qed.

Example empty_format_is_not_rendered :
  _time_column_validator
    (VExp (Tuple [Identifier "ds" false; Literal EmptyString true]))
  = Return (VTimeColumn (mkTimeColumn "ds" (Some EmptyString)))
  /\ TimeColumn_to_expression sample_column sample_format
       (mkTimeColumn "ds" (Some EmptyString)) default_dialect
     = Return (Column (Identifier "ds" false) None).
Proof. split; reflexivity. Qed.

Lemma rendering_round_trip_witness :
  renders_back sample_str sample_column sample_format (SeedKind "seed.csv" 1000)
  /\ renders_back sample_str sample_column sample_format
       (IncrementalByTimeRangeKind None None
          (mkTimeColumn "ds" (Some "%Y-%m-%d")))
  /\ renders_back sample_str sample_column sample_format (ViewKind false)
  /\ renders_back sample_str sample_column sample_format (Bare FULL).
Proof.
  repeat split;
    apply (rendering_round_trip sample_str sample_column sample_format); simpl.
  - lia.
  - repeat split. exists (fun fmt => fmt). split; reflexivity.
  - reflexivity.
  - now left.
Defined.

(** * Further properties *)

(** ** The predicates of the mixin *)

(** Every tag, and every instance through its tag, is of exactly one of the
    seven named kinds, and is exactly one of symbolic, a view, or
    materialized; what only cares about the latest date is never
    incremental. *)
Theorem kinds_partition (A : Type) (M : ModelKindMixin A) (self : A) :
  (length (filter (fun p : bool => p)
     [is_incremental_by_time_range self; is_incremental_by_unique_key self;
      is_full self; is_view self; is_embedded self; is_seed self;
      is_external self]) = 1)%nat
  /\ (length (filter (fun p : bool => p)
        [is_symbolic self; is_view self; is_materialized self]) = 1)%nat
  /\ (is_symbolic self = is_embedded self || is_external self)
  /\ (only_latest self = true ->
      is_incremental_by_time_range self = false
      /\ is_incremental_by_unique_key self = false).
Proof.
  unfold is_materialized, only_latest.
  unfold is_incremental_by_time_range, is_incremental_by_unique_key, is_full,
    is_view, is_embedded, is_seed, is_external, is_symbolic.
  destruct (model_kind_name self); cbn; repeat split;
    try reflexivity; try discriminate.
Qed.

Lemma kinds_partition_witness :
  is_incremental_by_time_range (ViewKind true) = false
  /\ is_incremental_by_unique_key (ViewKind true) = false.
Proof.
  exact (proj2 (proj2 (proj2
           (kinds_partition ModelKind ModelKind_mixin (ViewKind true))))
           eq_refl).
Defined.

(** ** The field utilities of the record base *)

Lemma is_field_false (fields : list string) (key : string) :
  is_field fields key = false <-> ~ In key fields.
Proof.
  rewrite <- is_field_In. destruct (is_field fields key); split;
    intros H; try reflexivity; try discriminate; try congruence.
Qed.

Lemma difference_nil (xs ys : list string) :
  difference xs ys = [] <-> incl xs ys.
Proof.
  unfold difference. induction xs as [|x xs IH]; simpl.
  - split; [intros _ k []|reflexivity].
  - destruct (is_field ys x) eqn:E; simpl.
    + apply is_field_In in E. rewrite IH. split.
      * intros H k [<-|Hk]; [assumption|now apply H].
      * intros H k Hk. apply H. now right.
    + apply is_field_false in E. split; [discriminate|].
      intros H. destruct E. apply H. now left.
Qed.

(** The field sets are read off the table of fields: [all_fields] is
    [_fields] with the predicate that keeps everything, [required_fields]
    with [is_required].  A set of provided names has no missing field exactly
    when it holds every required field, and no extra field exactly when it
    holds declared fields only; the declared fields themselves are neither
    short of a required one nor extra. *)
Theorem field_sets (cls : klass) :
  all_fields cls = _fields cls (fun _ => true)
  /\ required_fields cls = _fields cls is_required
  /\ (forall provided : list string,
         missing_required_fields cls provided = []
         <-> incl (required_fields cls) provided)
  /\ (forall provided : list string,
         extra_fields cls provided = [] <-> incl provided (all_fields cls))
  /\ missing_required_fields cls (all_fields cls) = []
  /\ extra_fields cls (all_fields cls) = [].
Proof.
  split; [now destruct cls|]. split; [now destruct cls|].
  split; [intros; apply difference_nil|].
  split; [intros; apply difference_nil|].
  split; now destruct cls.
Qed.

(** ** The properties of a model-kind node *)

Lemma dict_get_set (d : dict) (key key' : string) (v : value) :
  dict_get (dict_set d key v) key'
  = if String.eqb key key' then Some v else dict_get d key'.
Proof.
  induction d as [|[k w] d IH]; simpl.
  - reflexivity.
  - destruct (String.eqb k key) eqn:E; simpl.
    + apply String.eqb_eq in E. subst k.
      destruct (String.eqb key key'); reflexivity.
    + rewrite IH. destruct (String.eqb k key') eqn:E'; [|reflexivity].
      apply String.eqb_eq in E'. subst k.
      now rewrite String.eqb_sym, E.
Qed.

Lemma keys_dict_set (d : dict) (key : string) (v : value) :
  forall k, In k (keys (dict_set d key v)) <-> k = key \/ In k (keys d).
Proof.
  intros k. induction d as [|[k0 w] d IH]; simpl.
  - intuition.
  - destruct (String.eqb k0 key) eqn:E; simpl.
    + apply String.eqb_eq in E. subst k0. intuition.
    + rewrite IH. intuition.
Qed.

Lemma NoDup_dict_set (d : dict) (key : string) (v : value) :
  NoDup (keys d) -> NoDup (keys (dict_set d key v)).
Proof.
  induction d as [|[k0 w] d IH]; simpl; intros H.
  - constructor; [intros []|constructor].
  - inversion H as [|? ? Hnot Hrest]; subst.
    destruct (String.eqb k0 key) eqn:E; simpl.
    + now constructor.
    + constructor; [|now apply IH].
      intros Hin. apply keys_dict_set in Hin as [->|Hin]; [|contradiction].
      now rewrite String.eqb_refl in E.
Qed.

Lemma find_last {A : Type} (p : A -> bool) (xs : list A) (x : A) :
  find p (rev (x :: xs))
  = match find p (rev xs) with
    | Some y => Some y
    | None => if p x then Some x else None
    end.
Proof.
  simpl. induction (rev xs) as [|y ys IH]; simpl; [reflexivity|].
  destruct (p y); [reflexivity|exact IH].
Qed.

Lemma fold_props (es : list Expression) (d : dict) (key : string) :
  dict_get
    (fold_left (fun d prop => dict_set d (name prop) (value_arg prop)) es d) key
  = match find (fun e => String.eqb (name e) key) (rev es) with
    | Some e => Some (value_arg e)
    | None => dict_get d key
    end.
Proof.
  revert d. induction es as [|e es IH]; intros d; [reflexivity|].
  cbn [fold_left]. rewrite IH, find_last, dict_get_set.
  destruct (find _ (rev es)); [reflexivity|].
  destruct (String.eqb (name e) key); reflexivity.
Qed.

Lemma fold_props_NoDup (es : list Expression) (d : dict) :
  NoDup (keys d) ->
  NoDup (keys (fold_left
                 (fun d prop => dict_set d (name prop) (value_arg prop)) es d)).
Proof.
  revert d. induction es as [|e es IH]; intros d H; [exact H|].
  cbn [fold_left]. apply IH. now apply NoDup_dict_set.
Qed.

(** The mapping read off the properties of a node has each name once, and
    under a name the value of the last property that carries it; a name no
    property carries is absent. *)
Theorem props_of_lookup (es : list Expression) :
  NoDup (keys (props_of es))
  /\ forall key : string,
       dict_get (props_of es) key
       = option_map value_arg
           (find (fun e => String.eqb (name e) key) (rev es)).
Proof.
  split.
  - apply fold_props_NoDup. constructor.
  - intros key. unfold props_of. rewrite fold_props.
    destruct (find _ (rev es)); reflexivity.
Qed.

(** ** The shared validators *)

Section CommonProperties.
Variable object_str : value -> string.
Local Abbreviation tasks := (_concurrent_tasks_validator object_str).

Lemma tasks_of_int (n : Z) :
  tasks (VInt n)
  = if n <=? 0 then Raise (not_a_task_count object_str (VInt n))
    else Return (VInt n).
Proof. reflexivity. Qed.

(** The number of concurrent tasks.  What the validator returns counts as a
    positive integer, and on an input that is no string it either returns the
    input or raises the [ConfigError] that quotes it; an integer is returned
    exactly when it is positive. *)
Theorem concurrent_tasks_positive :
  (forall v w : value,
      tasks v = Return w ->
      exists n, 0 < n /\ as_int w = Return (Valid n))
  /\ (forall v : value,
         is_text v = false ->
         tasks v = Return v
         \/ tasks v = Raise (not_a_task_count object_str v))
  /\ (forall n : Z,
         (0 < n -> tasks (VInt n) = Return (VInt n))
         /\ (n <= 0 ->
             tasks (VInt n) = Raise (not_a_task_count object_str (VInt n)))).
Proof.
  split; [|split].
  - intros v w H. unfold _concurrent_tasks_validator in H.
    destruct v as [| [|] |k|s|m| | | | | |]; cbn -[Z.leb] in H;
      try discriminate H.
    + injection H as <-. exists 1. split; [lia|reflexivity].
    + destruct (k <=? 0) eqn:E; [discriminate H|].
      injection H as <-. exists k. split; [lia|reflexivity].
    + destruct (int_of_text s) as [k|]; cbn -[Z.leb] in H; [|discriminate H].
      destruct (k <=? 0) eqn:E; [discriminate H|].
      injection H as <-. exists k. split; [lia|reflexivity].
    + destruct (int_of_text (value_of m)) as [k|]; cbn -[Z.leb] in H;
        [|discriminate H].
      destruct (k <=? 0) eqn:E; [discriminate H|].
      injection H as <-. exists k. split; [lia|reflexivity].
  - intros v Hv. destruct v as [| [|] |k| | | | | | | |];
      try discriminate Hv; try (now right); try (now left).
    rewrite tasks_of_int. destruct (k <=? 0); [now right|now left].
  - intros n. rewrite tasks_of_int. split; intros H.
    + destruct (n <=? 0) eqn:E; [lia|reflexivity].
    + destruct (n <=? 0) eqn:E; [reflexivity|lia].
Qed.

(** A string is read as an integer first: the decimal text of a number is
    treated as the number, as is every ASCII text that [int()] reads as the
    number (white space around it, underscores between digits), and an ASCII
    text that is no integer leaves with the [ValueError] of [int()], not
    with a [ConfigError]. *)
Theorem concurrent_tasks_of_text :
  (forall n : Z, tasks (VStr (str_of_int n)) = tasks (VInt n))
  /\ (forall (s : string) (n : Z),
         is_ascii s = true ->
         int_of_text s = Some n -> tasks (VStr s) = tasks (VInt n))
  /\ (forall s : string,
         is_ascii s = true ->
         int_of_text s = None -> tasks (VStr s) = Raise (InvalidLiteral s)).
Proof.
  assert (T : forall s n, int_of_text s = Some n ->
                          tasks (VStr s) = tasks (VInt n)).
  { intros s n H. unfold _concurrent_tasks_validator, py_int.
    now rewrite H. }
  split; [|split].
  - intros n. apply T, int_of_text_str_of_int.
  - intros s n _. apply T.
  - intros s _ H. unfold _concurrent_tasks_validator, py_int. now rewrite H.
Qed.
End CommonProperties.

Lemma concurrent_tasks_positive_witness :
  (exists n, 0 < n /\ as_int (VInt 4) = Return (Valid n))
  /\ _concurrent_tasks_validator sample_str (VInt 4) = Return (VInt 4)
  /\ _concurrent_tasks_validator sample_str (VInt 0)
     = Raise (not_a_task_count sample_str (VInt 0)).
Proof.
  pose proof (concurrent_tasks_positive sample_str) as [Hret [_ Hint]].
  split; [|split].
  - apply (Hret (VStr " 4 ") (VInt 4)). reflexivity.
  - apply (proj1 (Hint 4)). lia.
  - apply (proj2 (Hint 0)). lia.
Defined.

Lemma concurrent_tasks_of_text_witness :
  _concurrent_tasks_validator sample_str (VStr "1_6")
  = _concurrent_tasks_validator sample_str (VInt 16)
  /\ _concurrent_tasks_validator sample_str (VStr "many")
     = Raise (InvalidLiteral "many").
Proof.
  pose proof (concurrent_tasks_of_text sample_str) as [_ [Hsome Hnone]].
  split.
  - apply (Hsome "1_6" 16); reflexivity.
  - apply (Hnone "many"); reflexivity.
Defined.

Lemma pairs_not_dict (d : dict) :
  _http_headers_validator (VList (pairs d)) = VList (pairs d).
Proof. reflexivity. Qed.

(** HTTP headers.  A mapping becomes the list of its (key, value) pairs, as
    many as its entries and in their order; anything else is left as it is,
    so the validator applied twice does what it does once. *)
Theorem http_headers_pairs :
  (forall v : value,
      _http_headers_validator (_http_headers_validator v)
      = _http_headers_validator v)
  /\ (forall v : value,
         match v with
         | VDict _ => True
         | _ => _http_headers_validator v = v
         end)
  /\ (forall entries : dict,
         exists items,
           _http_headers_validator (VDict entries) = VList items
           /\ length items = length entries
           /\ forall (i : nat) (k : string) (v : value),
                nth_error entries i = Some (k, v) ->
                nth_error items i = Some (VTuple [VStr k; v])).
Proof.
  split; [|split].
  - intros v. destruct v; reflexivity.
  - intros v. destruct v; first [exact I | reflexivity].
  - intros entries. exists (pairs entries). split; [reflexivity|]. split.
    + apply length_map.
    + intros i k v H. unfold pairs.
      now rewrite (map_nth_error _ _ _ H).
Qed.

Lemma http_headers_pairs_witness :
  exists items,
    _http_headers_validator
      (VDict [("Accept", VStr "*/*"); ("X-Token", VStr "t")]) = VList items
    /\ nth_error items 1 = Some (VTuple [VStr "X-Token"; VStr "t"]).
Proof.
  destruct (proj2 (proj2 http_headers_pairs)
              [("Accept", VStr "*/*"); ("X-Token", VStr "t")])
    as [items [Hv [_ Hnth]]].
  exists items. split; [exact Hv|].
  apply (Hnth 1%nat "X-Token" (VStr "t")). reflexivity.
Defined.

(** ** The classifier on nodes, mappings and other expressions *)

Section ClassifierPaths.
Variable object_str : value -> string.
Local Abbreviation new' := (new object_str).
Local Abbreviation classify := (_model_kind_validator object_str).

Lemma specialised_member (text : string) (cls : klass) :
  specialised (VStr text) = Some cls -> exists n, text = value_of n.
Proof.
  unfold specialised, eq_member.
  destruct (String.eqb text (value_of INCREMENTAL_BY_TIME_RANGE)) eqn:E1;
    [apply String.eqb_eq in E1; eauto|].
  destruct (String.eqb text (value_of INCREMENTAL_BY_UNIQUE_KEY)) eqn:E2;
    [apply String.eqb_eq in E2; eauto|].
  destruct (String.eqb text (value_of SEED)) eqn:E3;
    [apply String.eqb_eq in E3; eauto|].
  destruct (String.eqb text (value_of VIEW)) eqn:E4;
    [apply String.eqb_eq in E4; eauto|discriminate].
Qed.

Lemma specialised_unknown (text : string) :
  lookup_member text = None -> specialised (VStr text) = None.
Proof.
  intros H. destruct (specialised (VStr text)) as [cls|] eqn:E; [|reflexivity].
  apply specialised_member in E as [n ->].
  now rewrite lookup_member_value_of in H.
Qed.

(** A node whose tag is not, letter for letter, one of the seven tag strings
    is not classified, whatever its properties: the lookup of the tag raises
    the [ValueError] of the enumeration, which is no [ConfigError], and the
    tag is not upper-cased first. *)
Theorem node_with_unknown_tag (tag : string) (es : list Expression) :
  lookup_member tag = None ->
  classify (VExp (ModelKindNode tag es)) = Raise (InvalidMember tag).
Proof.
  intros H. unfold _model_kind_validator.
  now rewrite (specialised_unknown tag H), H.
Qed.

(** A mapping whose [name] is a text that is no tag string is refused by the
    validation of the base class, with a line for [name] before the lines of
    the other keys, none of which the base class declares. *)
Theorem mapping_with_unknown_name (entries : dict) (text : string) :
  dict_get entries "name" = Some (VStr text) ->
  lookup_member text = None ->
  classify (VDict entries)
  = Raise (ValidationError
             (LineError ["name"] enum :: extras ["name"] entries)).
Proof.
  intros Hname H. unfold _model_kind_validator. rewrite Hname.
  rewrite (specialised_unknown text H).
  unfold new, ModelKind_init, field. rewrite Hname.
  unfold no_validator, as_member. rewrite H. simpl.
  unfold finish. simpl. destruct (extras ["name"] entries); reflexivity.
Qed.

(** An expression that is no model-kind node and whose name is ASCII text
    is classified by its name, as the string of that name is: upper-cased
    and looked up among the tags. *)
Theorem expression_by_name (e : Expression) :
  is_kind_node e = false ->
  is_ascii (name e) = true ->
  classify (VExp e)
  = match lookup_member (upper (name e)) with
    | Some n => Return (Some (Bare n))
    | None =>
        Raise (ConfigError ("Invalid model kind '" ++ upper (name e) ++ "'"))
    end.
Proof.
  intros H _. rewrite <- (classify_text object_str (name e)).
  destruct e; try discriminate H; reflexivity.
Qed.

Lemma props_of_keys (es : list Expression) (e : Expression) :
  In e es -> In (name e) (keys (props_of es)).
Proof.
  unfold props_of. generalize (@nil (string * value)).
  induction es as [|x es IH]; intros d; [intros []|].
  intros [->|Hin]; cbn [fold_left].
  - assert (K : forall es d k,
               In k (keys d) ->
               In k (keys (fold_left
                       (fun d prop => dict_set d (name prop) (value_arg prop))
                       es d))).
    { clear. induction es as [|x es IH]; intros d k Hk; [exact Hk|].
      cbn [fold_left]. apply IH. apply keys_dict_set. now right. }
    apply K. apply keys_dict_set. now left.
  - now apply IH.
Qed.

(** A node with a property that no class of the family declares as a field
    is refused, whatever its tag and its other properties. *)
Theorem node_with_unknown_property
    (tag : string) (es : list Expression) (e : Expression) :
  In e es -> (forall cls, ~ In (name e) (all_fields cls)) ->
  exists err, classify (VExp (ModelKindNode tag es)) = Raise err.
Proof.
  intros Hin Hout. pose proof (props_of_keys es e Hin) as Hkey.
  change (fails (classify (VExp (ModelKindNode tag es)))).
  unfold _model_kind_validator. apply fails_first.
  destruct (specialised (VStr tag)) as [cls|].
  - now apply (new_fails_on_extra _ _ _ (name e)).
  - destruct (lookup_member tag) as [n|]; [|now exists (InvalidMember tag)].
    apply (new_fails_on_extra _ _ _ (name e)); [|apply Hout].
    apply keys_dict_set. now right.
Qed.
End ClassifierPaths.

Lemma node_with_unknown_tag_witness :
  _model_kind_validator sample_str
    (VExp (ModelKindNode "seed" [Property (Text "path") (Literal "a.csv" true)]))
  = Raise (InvalidMember "seed").
Proof. apply node_with_unknown_tag. reflexivity. Defined.

Lemma mapping_with_unknown_name_witness :
  _model_kind_validator sample_str
    (VDict [("name", VStr "TABLE"); ("owner", VStr "x")])
  = Raise (ValidationError
             [LineError ["name"] enum; LineError ["owner"] extra_forbidden]).
Proof.
  apply (mapping_with_unknown_name sample_str
           [("name", VStr "TABLE"); ("owner", VStr "x")] "TABLE");
    reflexivity.
Defined.

Lemma expression_by_name_witness :
  _model_kind_validator sample_str
    (VExp (Column (Identifier "full" false) None))
  = Return (Some (Bare FULL)).
Proof.
  apply (expression_by_name sample_str (Column (Identifier "full" false) None));
    reflexivity.
Defined.

Lemma node_with_unknown_property_witness :
  exists err,
    _model_kind_validator sample_str
      (VExp (ModelKindNode "FULL" [Property (Text "owner") (Literal "x" true)]))
    = Raise err.
Proof.
  apply (node_with_unknown_property sample_str "FULL"
           [Property (Text "owner") (Literal "x" true)]
           (Property (Text "owner") (Literal "x" true))).
  - now left.
  - intros cls H.
    destruct cls; simpl in H;
      repeat destruct H as [H|H]; try discriminate H; exact H.
Defined.

(** ** Views, seeds and sizes given in different shapes *)

Section FieldShapes.
Variable object_str : value -> string.
Local Abbreviation new' := (new object_str).
Local Abbreviation classify := (_model_kind_validator object_str).

Lemma view_of_value (v : value) :
  new' Class_ViewKind [("materialized", v)]
  = Return (ViewKind (materialized_of v)).
Proof. destruct v; reflexivity. Qed.

(** The [materialized] flag of a view is never refused: it is the Python
    truth of the value, and of the [this] of an expression.  A boolean node
    gives its boolean, but a literal, an identifier or a variable gives true
    as soon as its text is not empty, the text [false] included; a VIEW node
    with the property classifies accordingly, and without it as not
    materialized. *)
Theorem view_materialized_truth :
  (forall v : value,
      new' Class_ViewKind [("materialized", v)]
      = Return (ViewKind (materialized_of v)))
  /\ (forall b : bool, materialized_of (VExp (Boolean b)) = b)
  /\ (forall (s : string) (q : bool),
         materialized_of (VExp (Literal s q)) = nonempty s
         /\ materialized_of (VExp (Identifier s q)) = nonempty s
         /\ materialized_of (VExp (Var s)) = nonempty s
         /\ materialized_of (VStr s) = nonempty s)
  /\ (forall (key : Arg) (e : Expression),
         name (Property key e) = "materialized" ->
         classify (VExp (ModelKindNode "VIEW" [Property key e]))
         = Return (Some (ViewKind (materialized_of (VExp e)))))
  /\ classify (VExp (ModelKindNode "VIEW" [])) = Return (Some (ViewKind false)).
Proof.
  split; [apply view_of_value|]. split; [reflexivity|].
  split; [repeat split|]. split; [|reflexivity].
  intros key e Hname.
  change (classify (VExp (ModelKindNode "VIEW" [Property key e])))
    with (k <- new' Class_ViewKind [(name (Property key e), VExp e)] ;;
          Return (Some k)).
  now rewrite Hname, view_of_value.
Qed.

Lemma seed_of_path (v : value) :
  new' Class_SeedKind [("path", v)]
  = Return (SeedKind match v with
                     | VExp (Literal this _) => this
                     | _ => py_str object_str v
                     end 1000).
Proof. destruct v as [| | | | | | | |e| |]; try reflexivity. now destruct e. Qed.

(** The path of a seed is never refused: a literal gives its text, quoted or
    not, and any other value its [str()], so a string stays as it is and a
    number becomes its decimal text; the batch size left out is 1000. *)
Theorem seed_path_text :
  (forall v : value,
      exists p, new' Class_SeedKind [("path", v)] = Return (SeedKind p 1000))
  /\ (forall (s : string) (q : bool),
         new' Class_SeedKind [("path", VExp (Literal s q))]
         = Return (SeedKind s 1000)
         /\ new' Class_SeedKind [("path", VStr s)] = Return (SeedKind s 1000))
  /\ (forall n : Z,
         new' Class_SeedKind [("path", VInt n)]
         = Return (SeedKind (str_of_int n) 1000)).
Proof.
  split; [|split].
  - intros v. eexists. apply seed_of_path.
  - intros s q. split; apply seed_of_path.
  - intros n. apply seed_of_path.
Qed.

(** The batch size of a seed must be an [int] or a number literal: a string,
    even the decimal text of a positive number, and a quoted literal are
    refused with [Seed batch size must be an integer value], where the
    incremental kinds read the same text as the number. *)
Theorem seed_batch_size_text (p : string) :
  (forall s : string,
      new' Class_SeedKind [("path", VStr p); ("batch_size", VStr s)]
      = Raise integer_value_expected
      /\ new' Class_SeedKind
           [("path", VStr p); ("batch_size", VExp (Literal s true))]
         = Raise integer_value_expected)
  /\ new' Class_SeedKind [("path", VStr p); ("batch_size", VNone)]
     = Raise integer_value_expected
  /\ (forall n : Z,
         _int_validator "batch_size" (VStr (str_of_int n))
         = _int_validator "batch_size" (VInt n)).
Proof.
  split; [|split].
  - intros s. split; reflexivity.
  - reflexivity.
  - intros n. unfold _int_validator, py_int.
    now rewrite int_of_text_str_of_int.
Qed.

Lemma int_validator_shapes (field_name : string) (n : Z) :
  _int_validator field_name (VStr (str_of_int n))
  = _int_validator field_name (VInt n)
  /\ _int_validator field_name (VExp (Literal_number n))
     = _int_validator field_name (VInt n)
  /\ _int_validator field_name (VExp (Literal_string (str_of_int n)))
     = _int_validator field_name (VInt n).
Proof.
  unfold _int_validator, py_int, Literal_number, Literal_string. simpl name.
  now rewrite int_of_text_str_of_int.
Qed.

(** The sizes of the incremental kinds may come as an [int], as its decimal
    text or as a literal node, number or string: each shape is validated as
    the integer is, so the kinds constructed are the same; zero and [None]
    are accepted as they are. *)
Theorem incremental_size_shapes (field_name : string) :
  (forall n : Z,
      _int_validator field_name (VStr (str_of_int n))
      = _int_validator field_name (VInt n)
      /\ _int_validator field_name (VExp (Literal_number n))
         = _int_validator field_name (VInt n)
      /\ _int_validator field_name (VExp (Literal_string (str_of_int n)))
         = _int_validator field_name (VInt n))
  /\ _int_validator field_name (VInt 0) = Return (VInt 0)
  /\ _int_validator field_name VNone = Return VNone
  /\ (forall (col : string) (b l : Z),
         new' Class_IncrementalByTimeRangeKind
           (time_range_args col (VStr (str_of_int b))
              (VExp (Literal_number l)))
         = new' Class_IncrementalByTimeRangeKind
             (time_range_args col (VInt b) (VInt l)))
  /\ (forall (ks : list string) (b l : Z),
         new' Class_IncrementalByUniqueKeyKind
           (unique_key_args ks (VStr (str_of_int b))
              (VExp (Literal_number l)))
         = new' Class_IncrementalByUniqueKeyKind
             (unique_key_args ks (VInt b) (VInt l))).
Proof.
  split; [apply int_validator_shapes|]. split; [reflexivity|].
  split; [reflexivity|]. split.
  - intros col b l.
    destruct (int_validator_shapes "batch_size" b) as [Hb _].
    destruct (int_validator_shapes "lookback" l) as [_ [Hl _]].
    unfold new, IncrementalByTimeRangeKind_init, field, time_range_args.
    cbn -[_int_validator _time_column_validator].
    now rewrite Hb, Hl.
  - intros ks b l.
    destruct (int_validator_shapes "batch_size" b) as [Hb _].
    destruct (int_validator_shapes "lookback" l) as [_ [Hl _]].
    unfold new, IncrementalByUniqueKeyKind_init, field, unique_key_args.
    cbn -[_int_validator _parse_unique_key items_of].
    now rewrite Hb, Hl.
Qed.
End FieldShapes.

Lemma view_materialized_truth_witness :
  _model_kind_validator sample_str
    (VExp (ModelKindNode "VIEW"
             [Property (Node (Var "materialized")) (Literal "false" true)]))
  = Return (Some (ViewKind true)).
Proof.
  apply (proj1 (proj2 (proj2 (proj2 (view_materialized_truth sample_str))))
           (Node (Var "materialized")) (Literal "false" true)).
  reflexivity.
Defined.

(** ** What construction establishes *)

Lemma both_Valid {A B : Type} (x : validated A) (y : validated B) (p : A * B) :
  both x y = Valid p -> x = Valid (fst p) /\ y = Valid (snd p).
Proof.
  destruct x, y; simpl; intros H; try discriminate H.
  injection H as <-. now split.
Qed.

Lemma vmap_Valid {A B : Type} (f : A -> B) (x : validated A) (b : B) :
  vmap f x = Valid b -> exists a, x = Valid a /\ f a = b.
Proof.
  destruct x as [a|]; simpl; intros H; [|discriminate H].
  injection H as <-. now exists a.
Qed.

(** A field that validates had an input, given or by default, that its
    [before] validator returned on and that the annotated type accepted. *)
Lemma field_Valid {A : Type} (kwargs : dict) (fname : string)
    (default : option value) (before : value -> outcome value)
    (type : core A) (a : A) :
  field kwargs fname default before type = Return (Valid a) ->
  exists v w,
    match dict_get kwargs fname with
    | Some given => Some given
    | None => default
    end = Some v
    /\ before v = Return w /\ type w = Return (Valid a).
Proof.
  unfold field.
  destruct (match dict_get kwargs fname with
            | Some given => Some given
            | None => default
            end) as [v|]; [|discriminate].
  destruct (before v) as [w|e] eqn:B.
  - destruct (type w) as [[x|errs]|e] eqn:T; simpl; intros H;
      try discriminate H.
    injection H as <-. now exists v, w.
  - destruct e; simpl; discriminate.
Qed.

Lemma field_missing {A : Type} (kwargs : dict) (fname : string)
    (before : value -> outcome value) (type : core A) :
  dict_get kwargs fname = None ->
  field kwargs fname None before type
  = Return (Invalid [LineError [fname] missing]).
Proof. intros H. unfold field. now rewrite H. Qed.

Lemma dict_get_None (d : dict) (key : string) :
  ~ In key (keys d) -> dict_get d key = None.
Proof.
  induction d as [|[k v] d IH]; simpl; intros H; [reflexivity|].
  destruct (String.eqb k key) eqn:E.
  - apply String.eqb_eq in E. destruct H. now left.
  - apply IH. intros Hin. apply H. now right.
Qed.

Lemma finish_Invalid {A : Type} (fields : list string) (kwargs : dict)
    (errs : list line_error) :
  fails (@finish A fields kwargs (Invalid errs)).
Proof. unfold finish. destruct (extras fields kwargs); eexists; reflexivity. Qed.

Lemma int_validator_Return (field_name : string) (v w : value) (o : option Z) :
  _int_validator field_name v = Return w ->
  optional as_int w = Return (Valid o) -> non_negative o.
Proof.
  unfold _int_validator. intros V T.
  destruct v as [| [|] |k|s|m| | | |e| |]; cbn -[Z.ltb] in V;
    try discriminate V;
    try (injection V as <-; cbn in T; injection T as <-; simpl; lia).
  - destruct (k <? 0) eqn:E; [discriminate V|].
    injection V as <-. cbn in T. injection T as <-. simpl. lia.
  - destruct (int_of_text s) as [k|]; cbn -[Z.ltb] in V; [|discriminate V].
    destruct (k <? 0) eqn:E; [discriminate V|].
    injection V as <-. cbn in T. injection T as <-. simpl. lia.
  - destruct (int_of_text (value_of m)) as [k|]; cbn -[Z.ltb] in V;
      [|discriminate V].
    destruct (k <? 0) eqn:E; [discriminate V|].
    injection V as <-. cbn in T. injection T as <-. simpl. lia.
  - destruct (int_of_text (name e)) as [k|]; cbn -[Z.ltb] in V;
      [|discriminate V].
    destruct (k <? 0) eqn:E; [discriminate V|].
    injection V as <-. cbn in T. injection T as <-. simpl. lia.
Qed.

Lemma size_field (kwargs : dict) (fname : string) (o : option Z) :
  field kwargs fname (Some VNone) (_int_validator fname) (optional as_int)
  = Return (Valid o) ->
  non_negative o.
Proof.
  intros H. apply field_Valid in H as [v [w [_ [V T]]]].
  exact (int_validator_Return fname v w o V T).
Qed.

Lemma after_kind_validator (self k : ModelKind) :
  after _kind_validator self = Return k ->
  k = self
  /\ match self with
     | IncrementalByTimeRangeKind b l _ | IncrementalByUniqueKeyKind b l _ =>
         is_set b && is_set l && less b l = false
     | _ => True
     end.
Proof.
  unfold after, _kind_validator.
  destruct self as [n|b l tc|b l ks|m|p b]; simpl;
    try (intros H; injection H as <-; now split);
    destruct (is_set b && is_set l && less b l); simpl; intros H;
    try discriminate H; injection H as <-; now split.
Qed.

Lemma TimeColumn_init_Return (kwargs : dict) (tc : TimeColumn) :
  TimeColumn_init kwargs = Return tc -> nonempty (column tc) = true.
Proof.
  unfold TimeColumn_init. intros H.
  destruct (field kwargs "column" _ _ _) as [c|] eqn:C; [|discriminate H].
  destruct (field kwargs "format" _ _ _) as [f|]; [|discriminate H].
  simpl in H. apply finish_Return in H.
  apply vmap_Valid in H as [p [H <-]]. apply both_Valid in H as [Hc _].
  subst c. simpl. apply field_Valid in C as [v [w [_ [V T]]]].
  unfold _column_validator in V. destruct (truthy v) eqn:Tr; [|discriminate V].
  injection V as <-.
  destruct v; cbn in T; try discriminate T; injection T as <-.
  - exact Tr.
  - exact Tr.
Qed.

Lemma time_column_validator_Return (v : value) (tc : TimeColumn) :
  _time_column_validator v = Return (VTimeColumn tc) ->
  nonempty (column tc) = true \/ v = VTimeColumn tc.
Proof.
  assert (I : forall kwargs,
             (x <- TimeColumn_init kwargs ;; Return (VTimeColumn x))
             = Return (VTimeColumn tc) -> nonempty (column tc) = true).
  { intros kwargs H. destruct (TimeColumn_init kwargs) as [x|] eqn:E;
      [|discriminate H].
    injection H as ->. exact (TimeColumn_init_Return kwargs tc E). }
  unfold _time_column_validator.
  destruct v as [| | | | | | | |e| |]; intros H;
    try discriminate H; try (left; exact (I _ H));
    try (right; now injection H as ->).
  destruct e; left; exact (I _ H).
Qed.

Lemma as_TimeColumn_Valid (w : value) (tc : TimeColumn) :
  as_TimeColumn w = Return (Valid tc) ->
  nonempty (column tc) = true \/ w = VTimeColumn tc.
Proof.
  unfold as_TimeColumn. destruct w; intros H; try discriminate H.
  - destruct (TimeColumn_init entries) as [x|e] eqn:E.
    + injection H as ->. left. exact (TimeColumn_init_Return entries tc E).
    + destruct e; discriminate H.
  - injection H as ->. now right.
Qed.

Section Construction.
Variable object_str : value -> string.
Local Abbreviation new' := (new object_str).
Local Abbreviation classify := (_model_kind_validator object_str).

Lemma constructed_valid (cls : klass) (kwargs : dict) (k : ModelKind) :
  new' cls kwargs = Return k ->
  (forall tc, dict_get kwargs "time_column" = Some (VTimeColumn tc) ->
              nonempty (column tc) = true) ->
  class_of k = cls /\ validated_instance k.
Proof.
  intros H Hgiven. destruct cls; unfold new in H.
  - unfold ModelKind_init in H.
    destruct (field kwargs "name" _ _ _) as [n|]; [|discriminate H].
    simpl in H. apply finish_Return in H.
    apply vmap_Valid in H as [x [_ <-]]. now split.
  - unfold IncrementalByTimeRangeKind_init in H.
    destruct (field kwargs "name" _ _ _) as [n|]; [|discriminate H].
    destruct (field kwargs "batch_size" _ _ _) as [b|] eqn:B; [|discriminate H].
    destruct (field kwargs "lookback" _ _ _) as [l|] eqn:L; [|discriminate H].
    destruct (field kwargs "time_column" _ _ _) as [tc|] eqn:T;
      [|discriminate H].
    cbn [bind] in H.
    destruct (finish _ kwargs _) as [self|] eqn:F; [|discriminate H].
    cbn [bind] in H. apply after_kind_validator in H as [-> Hguard].
    apply finish_Return in F. apply vmap_Valid in F as [p [F <-]].
    apply both_Valid in F as [F Htc]. apply both_Valid in F as [F Hl].
    apply both_Valid in F as [_ Hb]. subst b l tc.
    split; [reflexivity|]. simpl in Hguard |- *.
    split; [exact (size_field _ _ _ B)|].
    split; [exact (size_field _ _ _ L)|]. split; [exact Hguard|].
    apply field_Valid in T as [v [w [Hin [V W]]]].
    destruct (as_TimeColumn_Valid w _ W) as [Hne| ->]; [exact Hne|].
    destruct (time_column_validator_Return v _ V) as [Hne| ->]; [exact Hne|].
    apply Hgiven. destruct (dict_get kwargs "time_column");
      [exact Hin|discriminate Hin].
  - unfold IncrementalByUniqueKeyKind_init in H.
    destruct (field kwargs "name" _ _ _) as [n|]; [|discriminate H].
    destruct (field kwargs "batch_size" _ _ _) as [b|] eqn:B; [|discriminate H].
    destruct (field kwargs "lookback" _ _ _) as [l|] eqn:L; [|discriminate H].
    destruct (field kwargs "unique_key" _ _ _) as [ks|]; [|discriminate H].
    cbn [bind] in H.
    destruct (finish _ kwargs _) as [self|] eqn:F; [|discriminate H].
    cbn [bind] in H. apply after_kind_validator in H as [-> Hguard].
    apply finish_Return in F. apply vmap_Valid in F as [p [F <-]].
    apply both_Valid in F as [F _]. apply both_Valid in F as [F Hl].
    apply both_Valid in F as [_ Hb]. subst b l.
    split; [reflexivity|]. simpl in Hguard |- *.
    split; [exact (size_field _ _ _ B)|].
    split; [exact (size_field _ _ _ L)|exact Hguard].
  - unfold ViewKind_init in H.
    destruct (field kwargs "name" _ _ _) as [n|]; [|discriminate H].
    destruct (field kwargs "materialized" _ _ _) as [m|]; [|discriminate H].
    simpl in H. apply finish_Return in H.
    apply vmap_Valid in H as [x [_ <-]]. now split.
  - assert (S : exists p b, k = SeedKind p b).
    { unfold SeedKind_init in H.
      destruct (field kwargs "name" _ _ _) as [n|]; [|discriminate H].
      destruct (field kwargs "path" _ _ _) as [p|]; [|discriminate H].
      destruct (field kwargs "batch_size" _ _ _) as [b|]; [|discriminate H].
      simpl in H. apply finish_Return in H.
      apply vmap_Valid in H as [x [_ <-]]. eauto. }
    destruct S as [p [b ->]]. split; [reflexivity|].
    exact (seed_is_positive object_str kwargs p b H).
Qed.

(** What the constructors establish.  An instance that a class returns is of
    that class, its sizes are not negative, its batch size is not below its
    lookback when neither is zero, the batch size of a seed is positive, and
    its time column has a name, provided that a time column handed in as an
    instance has one. *)
Theorem construction_invariants
    (cls : klass) (kwargs : dict) (k : ModelKind) :
  new' cls kwargs = Return k ->
  (forall tc, dict_get kwargs "time_column" = Some (VTimeColumn tc) ->
              nonempty (column tc) = true) ->
  class_of k = cls /\ validated_instance k.
Proof. apply constructed_valid. Qed.

(** A time column that [TimeColumn] returns has a name that is not empty,
    and so has the one that the validator of the [time_column] field returns,
    unless it is the instance that was handed in. *)
Theorem time_column_is_named :
  (forall (kwargs : dict) (tc : TimeColumn),
      TimeColumn_init kwargs = Return tc -> nonempty (column tc) = true)
  /\ (forall (v : value) (tc : TimeColumn),
         _time_column_validator v = Return (VTimeColumn tc) ->
         nonempty (column tc) = true \/ v = VTimeColumn tc).
Proof.
  split; [apply TimeColumn_init_Return|apply time_column_validator_Return].
Qed.

Lemma new_fails_on_missing (cls : klass) (kwargs : dict) (fname : string) :
  In fname (required_fields cls) -> ~ In fname (keys kwargs) ->
  fails (new' cls kwargs).
Proof.
  intros Hreq Hout. apply dict_get_None in Hout.
  destruct cls; simpl in Hreq; repeat destruct Hreq as [Hreq|Hreq];
    try contradiction; subst fname;
    unfold new, ModelKind_init, IncrementalByTimeRangeKind_init,
      IncrementalByUniqueKeyKind_init, SeedKind_init;
    rewrite (field_missing kwargs _ _ _ Hout);
    repeat match goal with
           | |- fails (bind (Return _) _) => cbn [bind]
           | |- fails (bind (finish _ _ _) _) => apply fails_first
           | |- fails (bind _ _) => apply fails_bind; intros ?
           end;
    repeat match goal with x : validated _ |- _ => destruct x end;
    cbn [vmap both errors_of]; apply finish_Invalid.
Qed.

(** Construction needs the required fields and takes no others: when a class
    returns an instance, the keys it was called with have no missing required
    field and no extra field, as [missing_required_fields] and [extra_fields]
    compute them. *)
Theorem construction_fields (cls : klass) (kwargs : dict) (k : ModelKind) :
  new' cls kwargs = Return k ->
  missing_required_fields cls (keys kwargs) = []
  /\ extra_fields cls (keys kwargs) = [].
Proof.
  intros H. split; apply difference_nil; intros fname Hin.
  - destruct (in_dec string_dec fname (keys kwargs)) as [Hk|Hk]; [exact Hk|].
    destruct (new_fails_on_missing cls kwargs fname Hin Hk) as [e He].
    rewrite He in H. discriminate H.
  - destruct (in_dec string_dec fname (all_fields cls)) as [Hk|Hk]; [exact Hk|].
    destruct (new_fails_on_extra object_str cls kwargs fname Hin Hk) as [e He].
    rewrite He in H. discriminate H.
Qed.
End Construction.

(** ** Export to a mapping and back *)

Section Mapping.
Variable object_str : value -> string.
Local Abbreviation new' := (new object_str).
Local Abbreviation classify := (_model_kind_validator object_str).

Lemma not_negative (n : Z) : 0 <= n -> (n <? 0) = false.
Proof. intros H. now apply Z.ltb_ge. Qed.

Lemma TimeColumn_dict_back
    (tc : TimeColumn) (exclude_none' by_alias' : option bool) :
  nonempty (column tc) = true ->
  TimeColumn_init (TimeColumn_dict tc exclude_none' by_alias') = Return tc.
Proof.
  intros H. destruct tc as [col fmt]. simpl in H.
  destruct col as [|c col]; [discriminate H|].
  destruct exclude_none' as [[|]|], fmt as [fmt|]; reflexivity.
Qed.

Ltac size_known :=
  repeat match goal with
         | H : non_negative (Some ?n) |- _ =>
             apply not_negative in H
         | H : non_negative None |- _ => clear H
         end.

Lemma dict_back (k : ModelKind) (exclude_none' by_alias' : option bool) :
  validated_instance k ->
  new' (class_of k) (PydanticModel_dict k exclude_none' by_alias') = Return k.
Proof.
  intros H. destruct k as [n|b l [col fmt]|b l ks|m|p n].
  - destruct exclude_none' as [[|]|]; reflexivity.
  - destruct H as [Hb [Hl [Hguard Hcol]]]. simpl in Hcol.
    destruct col as [|c col]; [discriminate Hcol|].
    unfold new, class_of, IncrementalByTimeRangeKind_init, field.
    destruct exclude_none' as [[|]|], b as [b|], l as [l|], fmt as [fmt|];
      size_known;
      cbn -[_int_validator Z.ltb after];
      rewrite ?int_validator_int, ?Hb, ?Hl;
      cbn -[after]; unfold after, _kind_validator; now rewrite Hguard.
  - destruct H as [Hb [Hl Hguard]].
    unfold new, class_of, IncrementalByUniqueKeyKind_init, field.
    destruct (unique_key_of_list object_str ks) as [Hkeys _].
    destruct exclude_none' as [[|]|], b as [b|], l as [l|];
      size_known;
      cbn -[_int_validator _parse_unique_key items_of Z.ltb after];
      rewrite ?int_validator_int, ?Hb, ?Hl;
      cbn -[_parse_unique_key items_of after];
      rewrite Hkeys; cbn -[items_of after]; rewrite items_of_texts;
      cbn -[after]; unfold after, _kind_validator; now rewrite Hguard.
  - destruct exclude_none' as [[|]|]; reflexivity.
  - simpl in H. unfold PydanticModel_dict, class_of.
    assert (D : forall args,
               model_dump args (SeedKind p n)
               = [("name", VName SEED); ("path", VStr p);
                  ("batch_size", VInt n)]).
    { intros args. unfold model_dump, dump_fields. simpl.
      now rewrite !andb_false_r. }
    rewrite D.
    assert (S : new' Class_SeedKind
                  [("path", VStr p); ("batch_size", VInt n)]
                = Return (SeedKind p n)).
    { rewrite seed_of_int. destruct (n <=? 0) eqn:E; [lia|reflexivity]. }
    exact S.
Qed.

(** Export to a mapping and back.  For an instance that satisfies what
    validation establishes, the mapping that [dict()] exports, with [None]
    values left out or kept, constructs an equal instance of the same class;
    and the classifier gives the instance back from that mapping, unless it is
    a bare kind whose tag has a class of its own.  The mapping of a time
    column likewise constructs the time column. *)
Theorem dict_round_trip (k : ModelKind) (exclude_none' by_alias' : option bool) :
  validated_instance k ->
  new' (class_of k) (PydanticModel_dict k exclude_none' by_alias') = Return k
  /\ (specialised (VName (kind_name k)) = None
      \/ specialised (VName (kind_name k)) = Some (class_of k) ->
      classify (VDict (PydanticModel_dict k exclude_none' by_alias'))
      = Return (Some k))
  /\ (forall tc : TimeColumn,
         nonempty (column tc) = true ->
         TimeColumn_init (TimeColumn_dict tc exclude_none' by_alias')
         = Return tc).
Proof.
  intros H. pose proof (dict_back k exclude_none' by_alias' H) as Hnew.
  split; [exact Hnew|]. split.
  - intros Hclass. unfold _model_kind_validator.
    assert (N : dict_get (PydanticModel_dict k exclude_none' by_alias') "name"
                = Some (VName (kind_name k))).
    { destruct k; destruct exclude_none' as [[|]|]; reflexivity. }
    rewrite N. destruct Hclass as [Hc|Hc]; rewrite Hc.
    + destruct k; try discriminate Hc. simpl class_of in Hnew.
      now rewrite Hnew.
    + now rewrite Hnew.
  - intros tc Htc. now apply TimeColumn_dict_back.
Qed.
End Mapping.

Lemma construction_invariants_witness :
  class_of (IncrementalByTimeRangeKind (Some 4) (Some 2) (mkTimeColumn "ds" None))
  = Class_IncrementalByTimeRangeKind
  /\ validated_instance
       (IncrementalByTimeRangeKind (Some 4) (Some 2) (mkTimeColumn "ds" None)).
Proof.
  apply (construction_invariants sample_str Class_IncrementalByTimeRangeKind
           (time_range_args "ds" (VStr "4") (VInt 2))).
  - reflexivity.
  - intros tc H. discriminate H.
Defined.

Lemma time_column_is_named_witness :
  nonempty (column (mkTimeColumn "ds" (Some "%Y"))) = true.
Proof.
  apply (proj1 time_column_is_named
           [("column", VStr "ds"); ("format", VStr "%Y")]).
  reflexivity.
Defined.

Lemma construction_fields_witness :
  missing_required_fields Class_SeedKind ["path"] = []
  /\ extra_fields Class_SeedKind ["path"] = [].
Proof.
  apply (construction_fields sample_str Class_SeedKind
           [("path", VStr "seed.csv")] (SeedKind "seed.csv" 1000)).
  reflexivity.
Defined.

Lemma dict_round_trip_witness :
  _model_kind_validator sample_str
    (VDict (PydanticModel_dict
              (IncrementalByUniqueKeyKind (Some 10) None ["id"; "ds"])
              None None))
  = Return (Some (IncrementalByUniqueKeyKind (Some 10) None ["id"; "ds"])).
Proof.
  apply (dict_round_trip sample_str
           (IncrementalByUniqueKeyKind (Some 10) None ["id"; "ds"]) None None).
  - simpl. repeat split. lia.
  - now right.
Defined.

(** ** The expression of a time column *)

Section TimeColumnExpression.
Variable to_column : string -> Expression.
Variable inverse_time_format : string -> option (string -> string).

Lemma parse_column_node (col : string) :
  nonempty col = true ->
  name (to_column col) = col -> is_tuple (to_column col) = false ->
  _time_column_validator (VExp (to_column col))
  = Return (VTimeColumn (mkTimeColumn col None)).
Proof.
  intros Hcol Hname Htuple. rewrite time_column_of_expression.
  destruct (to_column col); try discriminate Htuple;
    rewrite Hname; unfold parsed; now rewrite Hcol.
Qed.

Lemma parse_column_pair (col fmt : string) :
  nonempty col = true -> name (to_column col) = col ->
  _time_column_validator (VExp (Tuple [to_column col; Literal_string fmt]))
  = Return (VTimeColumn (mkTimeColumn col (Some fmt))).
Proof.
  intros Hcol Hname. rewrite time_column_of_expression. simpl name at 2.
  rewrite Hname. unfold parsed. now rewrite Hcol.
Qed.

(** The expression of a time column and the validator of the field.  When
    the column text is not empty and [to_column] renders it as a node, no
    tuple, named by the whole text: the [expression] of a time column parses
    back to the time column unless its format is the empty string, which is
    rendered as no format; [to_expression] for a dialect parses back to the
    time column with its format rewritten by the dialect; and a dialect that
    is not known makes [to_expression] raise only when there is a format to
    rewrite. *)
Theorem time_column_expression (tc : TimeColumn) :
  nonempty (column tc) = true ->
  name (to_column (column tc)) = column tc ->
  is_tuple (to_column (column tc)) = false ->
  (format tc <> Some EmptyString ->
   _time_column_validator (VExp (TimeColumn_expression to_column tc))
   = Return (VTimeColumn tc))
  /\ (format tc = Some EmptyString ->
      _time_column_validator (VExp (TimeColumn_expression to_column tc))
      = Return (VTimeColumn (mkTimeColumn (column tc) None)))
  /\ (forall (dialect : string) (rewrite : string -> string),
         inverse_time_format dialect = Some rewrite ->
         format tc <> Some EmptyString ->
         exists e,
           TimeColumn_to_expression to_column inverse_time_format tc dialect
           = Return e
           /\ _time_column_validator (VExp e)
              = Return (VTimeColumn
                          (mkTimeColumn (column tc)
                             (option_map rewrite (format tc)))))
  /\ (forall dialect : string,
         inverse_time_format dialect = None ->
         TimeColumn_to_expression to_column inverse_time_format tc dialect
         = match format tc with
           | Some (String _ _) => Raise (UnknownDialect dialect)
           | _ => Return (to_column (column tc))
           end).
Proof.
  destruct tc as [col fmt]. cbn [column format]. intros Hcol Hname Htuple.
  pose proof (parse_column_node col Hcol Hname Htuple) as Hnode.
  split; [|split; [|split]].
  - intros Hfmt. unfold TimeColumn_expression. cbn [column format].
    destruct fmt as [[|c f]|]; [congruence| |exact Hnode].
    simpl. now apply parse_column_pair.
  - intros ->. exact Hnode.
  - intros dialect rewrite Hdialect Hfmt.
    unfold TimeColumn_to_expression. cbn [column format].
    destruct fmt as [[|c f]|]; [congruence| |].
    + simpl. rewrite Hdialect. eexists. split; [reflexivity|].
      now apply parse_column_pair.
    + eexists. split; [reflexivity|exact Hnode].
  - intros dialect Hdialect. unfold TimeColumn_to_expression.
    cbn [column format]. destruct fmt as [[|c f]|]; try reflexivity.
    simpl. now rewrite Hdialect.
Qed.
End TimeColumnExpression.

Lemma time_column_expression_witness :
  _time_column_validator
    (VExp (TimeColumn_expression sample_column
             (mkTimeColumn "ds" (Some "%Y-%m-%d"))))
  = Return (VTimeColumn (mkTimeColumn "ds" (Some "%Y-%m-%d"))).
Proof.
  apply (proj1 (time_column_expression sample_column sample_format
                  (mkTimeColumn "ds" (Some "%Y-%m-%d"))
                  eq_refl eq_refl eq_refl)).
  discriminate.
Defined.

(** ** What rendering keeps *)

Section RenderingKeeps.
Variable object_str : value -> string.
Variable to_column : string -> Expression.
Variable inverse_time_format : string -> option (string -> string).
Local Abbreviation classify := (_model_kind_validator object_str).
Local Abbreviation render :=
  (to_expression to_column inverse_time_format).

(** What is classified from the rendering of an instance, for any dialect.
    A view comes back as not materialized, whatever it was; a kind by unique
    key renders without its key and the node is refused for the missing
    field, as are the bare kinds tagged SEED and with the incremental tags;
    the bare kind tagged VIEW comes back as a view; and a kind by time range
    whose column is rendered as a node named by the column text comes back
    without batch size and lookback, with its format rewritten by the
    dialect, and with no format if the format was the empty string. *)
Theorem rendered_then_classified :
  (forall (m : bool) (dialect : string),
      exists e, render (ViewKind m) dialect = Return e
                /\ classify (VExp e) = Return (Some (ViewKind false)))
  /\ (forall (b l : option Z) (ks : list string) (dialect : string),
         exists e,
           render (IncrementalByUniqueKeyKind b l ks) dialect = Return e
           /\ classify (VExp e)
              = Raise (ValidationError [LineError ["unique_key"] missing]))
  /\ (forall dialect : string,
         (exists e, render (Bare VIEW) dialect = Return e
                    /\ classify (VExp e) = Return (Some (ViewKind false)))
         /\ (exists e, render (Bare SEED) dialect = Return e
                       /\ classify (VExp e)
                          = Raise (ValidationError [LineError ["path"] missing]))
         /\ (exists e,
               render (Bare INCREMENTAL_BY_TIME_RANGE) dialect = Return e
               /\ classify (VExp e)
                  = Raise (ValidationError
                             [LineError ["time_column"] missing])))
  /\ (forall (b l : option Z) (tc : TimeColumn) (dialect : string)
             (rewrite : string -> string),
         nonempty (column tc) = true ->
         name (to_column (column tc)) = column tc ->
         is_tuple (to_column (column tc)) = false ->
         inverse_time_format dialect = Some rewrite ->
         exists e,
           render (IncrementalByTimeRangeKind b l tc) dialect = Return e
           /\ classify (VExp e)
              = Return (Some (IncrementalByTimeRangeKind None None
                                (mkTimeColumn (column tc)
                                   match format tc with
                                   | Some (String c f) =>
                                       Some (rewrite (String c f))
                                   | _ => None
                                   end)))).
Proof.
  split; [|split; [|split]].
  - intros m dialect. eexists. split; reflexivity.
  - intros b l ks dialect. eexists. split; reflexivity.
  - intros dialect. repeat split; eexists; split; reflexivity.
  - intros b l [col fmt] dialect rewrite Hcol Hname Htuple Hdialect.
    cbn [column format] in *.
    unfold to_expression, to_property, TimeColumn_to_expression.
    cbn [column format].
    destruct fmt as [[|c f]|]; cbn [nonempty negb]; rewrite ?Hdialect;
      cbn [bind]; eexists; (split; [reflexivity|]);
      change (ModelKind_to_expression (IncrementalByTimeRangeKind b l ?t) ?es)
        with (ModelKindNode "INCREMENTAL_BY_TIME_RANGE" es);
      rewrite classify_time_range_node;
      erewrite time_range_of_property; try reflexivity.
    + now apply parse_column_node.
    + now apply parse_column_pair.
    + now apply parse_column_node.
Qed.
End RenderingKeeps.

Lemma rendered_then_classified_witness :
  exists e,
    to_expression sample_column sample_format
      (IncrementalByTimeRangeKind (Some 7) (Some 1)
         (mkTimeColumn "ds" (Some "%Y")))
      "duckdb"
    = Return e
    /\ _model_kind_validator sample_str (VExp e)
       = Return (Some (IncrementalByTimeRangeKind None None
                         (mkTimeColumn "ds" (Some "%Y")))).
Proof.
  apply (proj2 (proj2 (proj2
           (rendered_then_classified sample_str sample_column sample_format)))
           (Some 7) (Some 1) (mkTimeColumn "ds" (Some "%Y")) "duckdb"
           (fun fmt => fmt));
    reflexivity.
Defined.
